(** * Ertis: generated REST endpoints and the token endpoints

    A shallow embedding of [src/generics/api.py] (the auth gate
    [ensure_token_provided] and [GenericErtisApi.generate_endpoints]) and of
    [src/custom_api/tokens.py] (the [create_token] and [refresh_token]
    views), with the properties the specification states about them.

    Python values are a small inductive type, dictionaries are finite maps,
    raised exceptions are the error side of a result, and every call that
    leaves the module (security manager, resource service, query parser) is
    recorded in a trace, so that the order of calls can be stated. *)

From Stdlib Require Import String Ascii List ZArith Bool Lia.
From Stdlib Require Import Floats.SpecFloat.
From stdpp Require Import base option gmap strings.
Import ListNotations.
Local Open Scope string_scope.
Local Open Scope list_scope.
Set Warnings "-register-all".

(** ** Python values *)

(** The values [json.loads] produces, which are also the values found in the
    settings dictionary and in a validation schema. *)
Inductive pyval : Type :=
| PyNone
| PyBool (b : bool)
| PyInt (n : Z)
| PyFloat (x : spec_float)
| PyStr (s : string)
| PyList (l : list pyval)
| PyDict (d : gmap string pyval).

(** Python truth value, as tested by [if not token]. *)
Definition truthy (v : pyval) : bool :=
  match v with
  | PyNone => false
  | PyBool b => b
  | PyInt n => negb (n =? 0)%Z
  | PyFloat (S754_zero _) => false
  | PyFloat _ => true
  | PyStr s => negb (String.eqb s "")
  | PyList l => match l with [] => false | _ :: _ => true end
  | PyDict d => negb (bool_decide (d = ∅))
  end.

(** ** Exceptions *)

(** [ErtisError] is built at its call sites with [err_code], [err_msg],
    [status_code] and an optional [context] dictionary; the other
    constructors are the built-in exceptions the modelled code can raise. *)
Inductive PyException : Type :=
| ErtisError (err_code err_msg : string) (status_code : nat)
             (context : option (gmap string pyval))
| UnboundLocalError (name : string)
| AttributeError (attr : string)
| KeyError (key : string)
| TypeError (msg : string)
| IndexError (msg : string)
| ValueError (msg : string)
| ValidationError (message : string) (schema : pyval)
| OtherError (msg : string).

Inductive Result (A : Type) : Type :=
| Ok (a : A)
| Raise (e : PyException).
Arguments Ok {A} a.
Arguments Raise {A} e.

(** The HTTP status an exception carries: only [ErtisError] declares one. *)
Definition status_of (e : PyException) : option nat :=
  match e with
  | ErtisError _ _ st _ => Some st
  | _ => None
  end.

(** ** String helpers *)

(** [s.split(sep)] for a one-character separator: the pieces between the
    occurrences of [sep], empty pieces included; [''.split(' ')] is [['']]. *)
Fixpoint split (sep : ascii) (s : string) : list string :=
  match s with
  | EmptyString => [EmptyString]
  | String c rest =>
      if Ascii.eqb c sep then EmptyString :: split sep rest
      else match split sep rest with
           | [] => [String c EmptyString]
           | piece :: pieces => String c piece :: pieces
           end
  end.

(** [d[key]]: a missing key raises [KeyError]. *)
Definition getitem {V : Type} (d : gmap string V) (key : string) : Result V :=
  match d !! key with
  | Some v => Ok v
  | None => Raise (KeyError key)
  end.

(** [obj.get(key, default)]: only a dictionary has the method. *)
Definition py_get (obj : pyval) (key : string) (default : pyval) : Result pyval :=
  match obj with
  | PyDict d => Ok (match d !! key with Some v => v | None => default end)
  | _ => Raise (AttributeError "get")
  end.

(** [obj[key]] on a parsed JSON value: a dictionary looks the key up, any
    other value cannot be indexed by a string. *)
Definition py_getitem (obj : pyval) (key : string) : Result pyval :=
  match obj with
  | PyDict d => getitem d key
  | _ => Raise (TypeError "subscript")
  end.

(** ** Computations with a trace

    A computation yields the calls it made, in order, and either a value or
    the exception that ended it. Nothing runs after a raise. *)
Definition M (E A : Type) : Type := (list E * Result A)%type.

Definition raise {E A : Type} (e : PyException) : M E A := ([], Raise e).
Definition lift {E A : Type} (r : Result A) : M E A := ([], r).
Definition call {E A : Type} (ev : E) (r : Result A) : M E A := ([ev], r).

#[global] Instance M_ret {E : Type} : MRet (M E) := fun A a => ([], Ok a).
#[global] Instance M_bind {E : Type} : MBind (M E) := fun A B k m =>
  match m with
  | (t, Ok a) => let '(t', r) := k a in (t ++ t', r)
  | (t, Raise e) => (t, Raise e)
  end.

Definition trace {E A : Type} (m : M E A) : list E := fst m.
Definition outcome {E A : Type} (m : M E A) : Result A := snd m.

(** ** HTTP requests and responses *)

Record Request : Type := {
  headers : gmap string string;
  data : string
}.

(** [Response(response, status=..., mimetype=...)]; [mimetype] is [None]
    when the call does not pass it. *)
Record Response : Type := {
  response : string;
  mimetype : option string;
  status : nat
}.

(** Flask's [Response.default_mimetype], used when none is passed. *)
Definition default_mimetype : string := "text/html".

Definition content_type (r : Response) : string :=
  match mimetype r with
  | Some m => m
  | None => default_mimetype
  end.

(** * [src/generics/api.py] *)

Module Api.

Section Api.

(** The user entity, the database handle, the generic service handle and
    the pipeline function pool are opaque to the controller. *)
Variables (User Db GenericService Pipeline : Type).

(** The calls a handler can place on [self.resource_service], with the
    arguments of each call site. *)
Inductive ServiceCall : Type :=
| CallFilter (generic_service : GenericService)
             (where_ select limit skip sort : pyval) (resource_name : string)
| CallGet (generic_service : GenericService) (_id : string)
          (resource_name : string)
| CallPost (generic_service : GenericService) (user : User) (data : string)
           (resource_name : string) (validate_by : option pyval)
           (pipeline : option Pipeline)
| CallPut (generic_service : GenericService) (user : User)
          (resource_id : string) (data : string) (resource_name : string)
          (validate_by : option pyval) (pipeline : option Pipeline)
| CallDelete (generic_service : GenericService) (resource_id : string)
             (resource_name : string) (pipeline : option Pipeline).

(** The interface of a resource service: what each method returns or
    raises. *)
Record ResourceService : Type := {
  rs_filter : GenericService -> pyval -> pyval -> pyval -> pyval -> pyval ->
              string -> Result string;
  rs_get : GenericService -> string -> string -> Result string;
  rs_post : GenericService -> User -> string -> string -> option pyval ->
            option Pipeline -> Result string;
  rs_put : GenericService -> User -> string -> string -> string ->
           option pyval -> option Pipeline -> Result string;
  rs_delete : GenericService -> string -> string -> option Pipeline ->
              Result string
}.

Definition invoke (rs : ResourceService) (c : ServiceCall) : Result string :=
  match c with
  | CallFilter gs w s l sk so n => rs_filter rs gs w s l sk so n
  | CallGet gs i n => rs_get rs gs i n
  | CallPost gs u d n v p => rs_post rs gs u d n v p
  | CallPut gs u i d n v p => rs_put rs gs u i d n v p
  | CallDelete gs i n p => rs_delete rs gs i n p
  end.

(** The user argument of a call, when the call site passes one. *)
Definition user_argument (c : ServiceCall) : option User :=
  match c with
  | CallPost _ u _ _ _ _ => Some u
  | CallPut _ u _ _ _ _ _ => Some u
  | CallFilter _ _ _ _ _ _ _ | CallGet _ _ _ | CallDelete _ _ _ _ => None
  end.

Inductive Event : Type :=
| EvLoadUser (db : Db) (token secret verify : pyval)
| EvParse (req : Request)
| EvService (c : ServiceCall).

Definition service_calls (t : list Event) : list ServiceCall :=
  omap (fun ev => match ev with EvService c => Some c | _ => None end) t.

(** [ErtisSecurityManager(db).load_user(token, secret, verify)] and
    [query_helpers.parse(request)], which live outside this module. *)
Variable load_user : Db -> pyval -> pyval -> pyval -> Result User.
Variable parse : Request -> Result (pyval * pyval * pyval * pyval * pyval).

Definition ensure_token_provided (db : Db) (req : Request)
    (api_name : string) (secret verify : pyval) : M Event User :=
  let auth_header := headers req !! "Authorization" in
  match auth_header with
  | None =>
      raise (ErtisError "errors.authorizationHeaderRequired"
               ("Authorization header is required for using this api<"
                  +:+ api_name +:+ ">") 401 None)
  | Some auth_header =>
      if String.eqb auth_header "" then
        raise (ErtisError "errors.authorizationHeaderRequired"
                 ("Authorization header is required for using this api<"
                    +:+ api_name +:+ ">") 401 None)
      else
        (* [str.split] does not raise, so the [except] branch, which only
           builds an error without raising it, is never taken *)
        let auth_header := split " " auth_header in
        if negb (Nat.eqb (length auth_header) 2) then
          raise (ErtisError "errors.invalidBearerTokenUsage"
                   "Bearer token usage is invalid" 401 None)
        else
          match auth_header !! 1 with
          | None => raise (IndexError "list index out of range")
          | Some token =>
              call (EvLoadUser db (PyStr token) secret verify)
                   (load_user db (PyStr token) secret verify)
          end
  end.

Definition STATUS_CODE_MAPPING : gmap string nat :=
  <["CREATE" := 201]> (<["READ" := 200]> (<["QUERY" := 200]>
    (<["UPDATE" := 200]> (<["DELETE" := 204]> (<["DISTINCT" := 200]> ∅))))).

Record App : Type := {
  db : Db;
  generic_service : GenericService
}.

Record GenericErtisApi : Type := {
  app : App;
  settings : gmap string pyval;
  endpoint_prefix : string;
  methods : list string;
  resource_name : string;
  resource_service : ResourceService;
  create_validation_schema : option pyval;
  update_validation_schema : option pyval;
  pipeline_functions : option Pipeline;
  allow_to_anonymous : bool
}.

(** [GenericErtisApi.__init__]: the two schemas and the pipeline default to
    [None], [allow_to_anonymous] to [False] when the caller leaves it out.
    (The logger it also creates is not modelled.) *)
Definition __init__ (app : App) (settings : gmap string pyval)
    (endpoint_prefix : string) (methods : list string)
    (resource_name : string) (resource_service : ResourceService)
    (create_validation_schema update_validation_schema : option pyval)
    (pipeline_functions : option Pipeline)
    (allow_to_anonymous : option bool) : GenericErtisApi :=
  {| app := app;
     settings := settings;
     endpoint_prefix := endpoint_prefix;
     methods := methods;
     resource_name := resource_name;
     resource_service := resource_service;
     create_validation_schema := create_validation_schema;
     update_validation_schema := update_validation_schema;
     pipeline_functions := pipeline_functions;
     allow_to_anonymous := default false allow_to_anonymous |}.

Definition generate_urls (self : GenericErtisApi)
    : string * string * string * string * string :=
  let url := endpoint_prefix self +:+ "/<resource_id>" in
  let delete_url := url in
  let get_url := url in
  let update_url := url in
  let post_url := endpoint_prefix self in
  let query_url := endpoint_prefix self +:+ "/_query" in
  (get_url, post_url, update_url, delete_url, query_url).

(** The call [ensure_token_provided(app.db, request, self.resource_name,
    self.settings['application_secret'], self.settings['verify_token'])]
    that every handler writes: the two settings are looked up while the
    arguments are evaluated, before the gate runs. *)
Definition gate (self : GenericErtisApi) (req : Request) : M Event User :=
  secret ← lift (getitem (settings self) "application_secret");
  verify ← lift (getitem (settings self) "verify_token");
  ensure_token_provided (db (app self)) req (resource_name self) secret verify.

Definition call_service (self : GenericErtisApi) (c : ServiceCall)
    : M Event string :=
  call (EvService c) (invoke (resource_service self) c).

(** Reading a local variable that was never assigned. *)
Definition read_local {A : Type} (name : string) (v : option A) : M Event A :=
  match v with
  | Some a => mret a
  | None => raise (UnboundLocalError name)
  end.

Definition query (self : GenericErtisApi) (req : Request) : M Event Response :=
  _ ← (if negb (allow_to_anonymous self)
       then _ ← gate self req; mret tt
       else mret tt);
  '(where_, select, limit, sort, skip) ← call (EvParse req) (parse req);
  body ← call_service self
           (CallFilter (generic_service (app self)) where_ select
              limit skip sort (resource_name self));
  st ← lift (getitem STATUS_CODE_MAPPING "QUERY");
  mret {| response := body; mimetype := Some "application/json"; status := st |}.

Definition read (self : GenericErtisApi) (req : Request)
    (resource_id : string) : M Event Response :=
  _ ← (if negb (allow_to_anonymous self)
       then _ ← gate self req; mret tt
       else mret tt);
  body ← call_service self
           (CallGet (generic_service (app self)) resource_id
              (resource_name self));
  st ← lift (getitem STATUS_CODE_MAPPING "READ");
  mret {| response := body; mimetype := Some "application/json"; status := st |}.

(** In [create] and [update] the local [user] is assigned only inside the
    authentication branch. *)
Definition create (self : GenericErtisApi) (req : Request) : M Event Response :=
  user ← (if negb (allow_to_anonymous self)
          then u ← gate self req; mret (Some u)
          else mret None);
  let data := data req in
  user ← read_local "user" user;
  body ← call_service self
           (CallPost (generic_service (app self)) user data
              (resource_name self) (create_validation_schema self)
              (pipeline_functions self));
  st ← lift (getitem STATUS_CODE_MAPPING "CREATE");
  mret {| response := body; mimetype := Some "application/json"; status := st |}.

Definition update (self : GenericErtisApi) (req : Request)
    (resource_id : string) : M Event Response :=
  user ← (if negb (allow_to_anonymous self)
          then u ← gate self req; mret (Some u)
          else mret None);
  let data := data req in
  user ← read_local "user" user;
  body ← call_service self
           (CallPut (generic_service (app self)) user resource_id data
              (resource_name self) (update_validation_schema self)
              (pipeline_functions self));
  st ← lift (getitem STATUS_CODE_MAPPING "UPDATE");
  mret {| response := body; mimetype := Some "application/json"; status := st |}.

Definition delete (self : GenericErtisApi) (req : Request)
    (resource_id : string) : M Event Response :=
  _ ← (if negb (allow_to_anonymous self)
       then _ ← gate self req; mret tt
       else mret tt);
  body ← call_service self
           (CallDelete (generic_service (app self)) resource_id
              (resource_name self) (pipeline_functions self));
  st ← lift (getitem STATUS_CODE_MAPPING "DELETE");
  mret {| response := body; mimetype := None; status := st |}.

(** The five view functions [generate_endpoints] can define. *)
Inductive View : Type := Query | Read | Create | Update | Delete.

(** The entry of [self.methods] that switches a view on. *)
Definition method_of (v : View) : string :=
  match v with
  | Query => "QUERY"
  | Read => "GET"
  | Create => "POST"
  | Update => "PUT"
  | Delete => "DELETE"
  end.

(** Running a view on a request; [resource_id] is the URL variable, which
    [query] and [create] do not have. *)
Definition run_view (self : GenericErtisApi) (v : View) (req : Request)
    (resource_id : string) : M Event Response :=
  match v with
  | Query => query self req
  | Read => read self req resource_id
  | Create => create self req
  | Update => update self req resource_id
  | Delete => delete self req resource_id
  end.

(** A rule added by [@app.route(rule, methods=...)], with the endpoint
    name [rename] gives the view. *)
Record Route : Type := {
  rule : string;
  http_methods : list string;
  endpoint : string;
  view_func : View
}.

(** The routes [generate_endpoints] registers, in order. (The log line it
    writes first is not modelled.) *)
Definition generate_endpoints (self : GenericErtisApi) : list Route :=
  let '(get_url, post_url, update_url, delete_url, query_url) :=
    generate_urls self in
  (if bool_decide ("QUERY" ∈ methods self)
   then [ {| rule := query_url; http_methods := ["POST"];
             endpoint := resource_name self +:+ "_query";
             view_func := Query |} ]
   else []) ++
  (if bool_decide ("GET" ∈ methods self)
   then [ {| rule := get_url; http_methods := ["GET"];
             endpoint := resource_name self +:+ "_read";
             view_func := Read |} ]
   else []) ++
  (if bool_decide ("POST" ∈ methods self)
   then [ {| rule := post_url; http_methods := ["POST"];
             endpoint := resource_name self +:+ "_create";
             view_func := Create |} ]
   else []) ++
  (if bool_decide ("PUT" ∈ methods self)
   then [ {| rule := update_url; http_methods := ["PUT"];
             endpoint := resource_name self +:+ "_update";
             view_func := Update |} ]
   else []) ++
  (if bool_decide ("DELETE" ∈ methods self)
   then [ {| rule := delete_url; http_methods := ["DELETE"];
             endpoint := resource_name self +:+ "_delete";
             view_func := Delete |} ]
   else []).

End Api.

End Api.

Arguments Api.CallFilter {User GenericService Pipeline}.
Arguments Api.CallGet {User GenericService Pipeline}.
Arguments Api.CallPost {User GenericService Pipeline}.
Arguments Api.CallPut {User GenericService Pipeline}.
Arguments Api.CallDelete {User GenericService Pipeline}.
Arguments Api.invoke {User GenericService Pipeline}.
Arguments Api.user_argument {User GenericService Pipeline}.
Arguments Api.EvLoadUser {User Db GenericService Pipeline}.
Arguments Api.EvParse {User Db GenericService Pipeline}.
Arguments Api.EvService {User Db GenericService Pipeline}.
Arguments Api.service_calls {User Db GenericService Pipeline}.
Arguments Api.ensure_token_provided {User Db GenericService Pipeline}.
Arguments Api.db {Db GenericService}.
Arguments Api.generic_service {Db GenericService}.
Arguments Api.app {User Db GenericService Pipeline}.
Arguments Api.settings {User Db GenericService Pipeline}.
Arguments Api.endpoint_prefix {User Db GenericService Pipeline}.
Arguments Api.methods {User Db GenericService Pipeline}.
Arguments Api.resource_name {User Db GenericService Pipeline}.
Arguments Api.resource_service {User Db GenericService Pipeline}.
Arguments Api.create_validation_schema {User Db GenericService Pipeline}.
Arguments Api.update_validation_schema {User Db GenericService Pipeline}.
Arguments Api.pipeline_functions {User Db GenericService Pipeline}.
Arguments Api.allow_to_anonymous {User Db GenericService Pipeline}.
Arguments Api.__init__ {User Db GenericService Pipeline}.
Arguments Api.generate_urls {User Db GenericService Pipeline}.
Arguments Api.gate {User Db GenericService Pipeline}.
Arguments Api.call_service {User Db GenericService Pipeline}.
Arguments Api.query {User Db GenericService Pipeline}.
Arguments Api.read {User Db GenericService Pipeline}.
Arguments Api.create {User Db GenericService Pipeline}.
Arguments Api.update {User Db GenericService Pipeline}.
Arguments Api.delete {User Db GenericService Pipeline}.
Arguments Api.run_view {User Db GenericService Pipeline}.
Arguments Api.generate_endpoints {User Db GenericService Pipeline}.

(** * [src/custom_api/tokens.py] *)

Module Tokens.

Section Tokens.

Variables (User Db GenericService : Type).

Inductive Event : Type :=
| EvLoadUser (db : Db) (token secret verify : pyval)
| EvCraftToken (generic_service : GenericService)
               (credentials secret ttl : pyval)
| EvRefreshToken (user : User) (secret ttl : pyval).

(** What the module imports: [json.loads] and [json.dumps],
    [jsonschema.validate] (a failure is a [ValidationError] carrying the
    message and the schema that was violated), the schema constant, the
    security manager and the two operations of [ErtisTokenService]. *)
Variable json_loads : string -> Result pyval.
Variable json_dumps : pyval -> string.
Variable validate : pyval -> pyval -> Result unit.
Variable CREATE_TOKEN_SCHEMA : pyval.
Variable load_user : Db -> pyval -> pyval -> pyval -> Result User.
Variable craft_token : GenericService -> pyval -> pyval -> pyval -> Result string.
Variable service_refresh_token : User -> pyval -> pyval -> Result string.

Definition create_token (app : Api.App Db GenericService)
    (settings : gmap string pyval) (req : Request) : M Event Response :=
  body ← lift (json_loads (data req));
  _ ← match validate body CREATE_TOKEN_SCHEMA with
      | Ok _ => mret tt
      | Raise (ValidationError message schema) =>
          required ← lift (py_get schema "required" (PyList []));
          properties ← lift (py_get schema "properties" (PyDict ∅));
          raise (ErtisError "errors.validationError" message 400
                   (Some (<["required" := required]>
                            (<["properties" := properties]> ∅))))
      | Raise e => raise e
      end;
  email ← lift (py_getitem body "email");
  password ← lift (py_getitem body "password");
  let credentials :=
    PyDict (<["email" := email]> (<["password" := password]> ∅)) in
  secret ← lift (getitem settings "application_secret");
  ttl ← lift (getitem settings "token_ttl");
  token ← call (EvCraftToken (Api.generic_service app) credentials secret ttl)
               (craft_token (Api.generic_service app) credentials secret ttl);
  let response := PyDict (<["token" := PyStr token]> ∅) in
  mret {| response := json_dumps response;
          mimetype := Some "application/json";
          status := 200 |}.

Definition refresh_token (app : Api.App Db GenericService)
    (settings : gmap string pyval) (req : Request) : M Event Response :=
  body ← match json_loads (data req) with
         | Ok body => mret body
         | Raise (ValueError msg) =>
             raise (ErtisError "errors.badRequest" "Invalid json provided" 400
                      (Some (<["message" := PyStr msg]> ∅)))
         | Raise e => raise e
         end;
  token ← lift (py_get body "token" PyNone);
  if negb (truthy token) then
    raise (ErtisError "errors.tokenRequired" "Token is required" 400 None)
  else
    secret ← lift (getitem settings "application_secret");
    verify ← lift (getitem settings "verify_token");
    user ← call (EvLoadUser (Api.db app) token secret verify)
                (load_user (Api.db app) token secret verify);
    secret ← lift (getitem settings "application_secret");
    ttl ← lift (getitem settings "token_ttl");
    new_token ← call (EvRefreshToken user secret ttl)
                     (service_refresh_token user secret ttl);
    let response := PyDict (<["token" := PyStr new_token]> ∅) in
    mret {| response := json_dumps response;
            mimetype := Some "application/json";
            status := 201 |}.

(** The two views [init_api] defines, and the rules it adds for them; the
    endpoint of a rule is the name of its view function. *)
Inductive View : Type := CreateToken | RefreshToken.

Record Route : Type := {
  rule : string;
  http_methods : list string;
  endpoint : string;
  view_func : View
}.

(** [str.format] on one argument, which renders it as [str] does. *)
Variable py_str : pyval -> string.

(** [init_api]: each decorator looks [settings['api_version']] up, then
    registers its rule. The trace is the list of rules registered so far. *)
Definition init_api (settings : gmap string pyval) : M Route unit :=
  version ← lift (getitem settings "api_version");
  _ ← call {| rule := "/api/" +:+ py_str version +:+ "/tokens";
              http_methods := ["POST"];
              endpoint := "create_token";
              view_func := CreateToken |} (Ok tt);
  version ← lift (getitem settings "api_version");
  call {| rule := "/api/" +:+ py_str version +:+ "/tokens/refresh";
          http_methods := ["POST"];
          endpoint := "refresh_token";
          view_func := RefreshToken |} (Ok tt).

End Tokens.

End Tokens.

Arguments Tokens.EvLoadUser {User Db GenericService}.
Arguments Tokens.EvCraftToken {User Db GenericService}.
Arguments Tokens.EvRefreshToken {User Db GenericService}.
Arguments Tokens.create_token {User Db GenericService}.
Arguments Tokens.refresh_token {User Db GenericService}.

(** * The specification's reading of three contracts

    These definitions follow the words of the specification, not the code;
    they are compared with the code below. *)

(** Whitespace as [str.split()] with no argument understands it. *)
Definition is_whitespace (c : ascii) : bool :=
  let n := nat_of_ascii c in
  (Nat.leb 9 n && Nat.leb n 13) || (Nat.leb 28 n && Nat.leb n 32).

(** The whitespace-separated tokens of a string: maximal runs of
    characters that are not whitespace. *)
Fixpoint whitespace_tokens (s : string) : list string :=
  match s with
  | EmptyString => []
  | String c rest =>
      let ts := whitespace_tokens rest in
      if is_whitespace c then ts
      else match rest with
           | EmptyString => [String c EmptyString]
           | String c' _ =>
               if is_whitespace c' then String c EmptyString :: ts
               else match ts with
                    | [] => [String c EmptyString]
                    | t :: ts' => String c t :: ts'
                    end
           end
  end.

(** The auth gate contract as the specification words it: a missing header
    is a 401 [errors.authorizationHeaderRequired]; a header that is not
    exactly two whitespace-separated tokens is a 401
    [errors.invalidBearerTokenUsage]; otherwise the second token goes to
    [load_user]. *)
Definition auth_gate_as_stated {User Db GenericService Pipeline : Type}
    (load_user : Db -> pyval -> pyval -> pyval -> Result User)
    (db : Db) (req : Request) (api_name : string) (secret verify : pyval)
    : Prop :=
  let run :=
    Api.ensure_token_provided (GenericService := GenericService)
      (Pipeline := Pipeline) load_user db req api_name secret verify in
  match headers req !! "Authorization" with
  | None =>
      trace run = [] /\
      exists msg ctx,
        outcome run =
        Raise (ErtisError "errors.authorizationHeaderRequired" msg 401 ctx)
  | Some h =>
      match whitespace_tokens h with
      | [_; credential] =>
          run = call (Api.EvLoadUser db (PyStr credential) secret verify)
                     (load_user db (PyStr credential) secret verify)
      | _ =>
          trace run = [] /\
          exists msg ctx,
            outcome run =
            Raise (ErtisError "errors.invalidBearerTokenUsage" msg 401 ctx)
      end
  end.

(** The threading of the user as the specification words it: the user the
    gate resolved is an argument of the delegate call of POST, PUT and
    DELETE, and is not one for GET and QUERY. *)
Definition user_threading_as_stated {User Db GenericService Pipeline : Type}
    (load_user : Db -> pyval -> pyval -> pyval -> Result User)
    (parse : Request -> Result (pyval * pyval * pyval * pyval * pyval))
    (self : Api.GenericErtisApi User Db GenericService Pipeline)
    (v : Api.View) (req : Request) (resource_id : string) : Prop :=
  forall u, outcome (Api.gate load_user self req) = Ok u ->
  forall c,
    c ∈ Api.service_calls (trace (Api.run_view load_user parse self v req resource_id)) ->
    Api.user_argument c =
    match v with
    | Api.Create | Api.Update | Api.Delete => Some u
    | Api.Read | Api.Query => None
    end.

(** The validation error of [create_token] as the specification words it:
    a body that violates the create-token schema fails with a 400
    [errors.validationError] whose context holds the [required] and
    [properties] entries of the create-token schema. *)
Definition validation_context_as_stated {User Db GenericService : Type}
    (json_loads : string -> Result pyval) (json_dumps : pyval -> string)
    (validate : pyval -> pyval -> Result unit) (CREATE_TOKEN_SCHEMA : pyval)
    (craft_token : GenericService -> pyval -> pyval -> pyval -> Result string)
    (app : Api.App Db GenericService) (settings : gmap string pyval)
    (req : Request) : Prop :=
  forall body message schema,
    json_loads (data req) = Ok body ->
    validate body CREATE_TOKEN_SCHEMA =
    Raise (ValidationError message schema) ->
    exists msg context required properties,
      outcome (Tokens.create_token (User := User) json_loads json_dumps
                 validate CREATE_TOKEN_SCHEMA craft_token app settings req) =
      Raise (ErtisError "errors.validationError" msg 400 (Some context)) /\
      py_get CREATE_TOKEN_SCHEMA "required" (PyList []) = Ok required /\
      py_get CREATE_TOKEN_SCHEMA "properties" (PyDict ∅) = Ok properties /\
      context !! "required" = Some required /\
      context !! "properties" = Some properties.

(** * A small deployment

    One resource, [users], over stand-ins for the collaborators; it gives
    the general statements below a concrete request to run on. *)

Module Sample.

Definition settings : gmap string pyval :=
  <["application_secret" := PyStr "s3cret"]>
    (<["verify_token" := PyBool true]>
       (<["token_ttl" := PyInt 60]> (<["api_version" := PyStr "v1"]> ∅))).

(** Accepts the token [abc] for the user [alice], rejects every other. *)
Definition load_user (_ : unit) (token _ _ : pyval) : Result string :=
  match token with
  | PyStr "abc" => Ok "alice"
  | _ => Raise (ErtisError "errors.tokenIsInvalid" "Provided token is invalid" 401 None)
  end.

Definition parse (_ : Request)
    : Result (pyval * pyval * pyval * pyval * pyval) :=
  Ok (PyDict ∅, PyNone, PyInt 10, PyNone, PyInt 0).

Definition resource_service : Api.ResourceService string unit unit :=
  {| Api.rs_filter := fun _ _ _ _ _ _ _ => Ok "[]";
     Api.rs_get := fun _ _id _ => Ok ("{id: " +:+ _id +:+ "}");
     Api.rs_post := fun _ _ data _ _ _ => Ok data;
     Api.rs_put := fun _ _ _ data _ _ _ => Ok data;
     Api.rs_delete := fun _ _ _ _ => Ok "" |}.

Definition app : Api.App unit unit :=
  {| Api.db := tt; Api.generic_service := tt |}.

Definition users (methods : list string) (allow_to_anonymous : bool)
    : Api.GenericErtisApi string unit unit unit :=
  {| Api.app := app;
     Api.settings := settings;
     Api.endpoint_prefix := "/api/v1/users";
     Api.methods := methods;
     Api.resource_name := "users";
     Api.resource_service := resource_service;
     Api.create_validation_schema := None;
     Api.update_validation_schema := None;
     Api.pipeline_functions := None;
     Api.allow_to_anonymous := allow_to_anonymous |}.

Definition all_methods : list string :=
  ["GET"; "POST"; "PUT"; "DELETE"; "QUERY"].

Definition request (authorization : option string) (body : string)
    : Request :=
  {| headers := match authorization with
                | Some h => <["Authorization" := h]> ∅
                | None => ∅
                end;
     data := body |}.

Definition quote : string := String "034"%char EmptyString.

(** The body [{"email": 1, "password": "pw"}], whose email has the wrong
    type. *)
Definition wrong_type_body : string :=
  "{" +:+ quote +:+ "email" +:+ quote +:+ ": 1, "
      +:+ quote +:+ "password" +:+ quote +:+ ": "
      +:+ quote +:+ "pw" +:+ quote +:+ "}".

(** The request bodies used below:
    [{"token": "abc"}], [{"email": "a@b.com", "password": "pw"}],
    [{"email": "a@b.com"}], the array [[]] and the truncated [{]. *)
Definition refresh_body : string :=
  "{" +:+ quote +:+ "token" +:+ quote +:+ ": "
      +:+ quote +:+ "abc" +:+ quote +:+ "}".
Definition login_body : string :=
  "{" +:+ quote +:+ "email" +:+ quote +:+ ": "
      +:+ quote +:+ "a@b.com" +:+ quote +:+ ", "
      +:+ quote +:+ "password" +:+ quote +:+ ": "
      +:+ quote +:+ "pw" +:+ quote +:+ "}".
Definition partial_body : string :=
  "{" +:+ quote +:+ "email" +:+ quote +:+ ": "
      +:+ quote +:+ "a@b.com" +:+ quote +:+ "}".

(** [json.loads] on exactly those bodies and on [wrong_type_body]. *)
Definition json_loads (s : string) : Result pyval :=
  if String.eqb s refresh_body then
    Ok (PyDict (<["token" := PyStr "abc"]> ∅))
  else if String.eqb s login_body then
    Ok (PyDict (<["email" := PyStr "a@b.com"]>
                  (<["password" := PyStr "pw"]> ∅)))
  else if String.eqb s partial_body then
    Ok (PyDict (<["email" := PyStr "a@b.com"]> ∅))
  else if String.eqb s wrong_type_body then
    Ok (PyDict (<["email" := PyInt 1]> (<["password" := PyStr "pw"]> ∅)))
  else if String.eqb s "[]" then Ok (PyList [])
  else Raise (ValueError "Expecting property name enclosed in double quotes: line 1 column 2 (char 1)").

(** [json.dumps] on a response dictionary with a string token. *)
Definition json_dumps (v : pyval) : string :=
  match v with
  | PyDict d =>
      match d !! "token" with
      | Some (PyStr t) =>
          "{" +:+ quote +:+ "token" +:+ quote +:+ ": "
              +:+ quote +:+ t +:+ quote +:+ "}"
      | _ => "{}"
      end
  | _ => "null"
  end.

(** A schema requiring the two string fields, and a validator that checks
    exactly that requirement; a value of the wrong type is reported against
    the sub-schema of its property, as [jsonschema] does. *)
Definition CREATE_TOKEN_SCHEMA : pyval :=
  PyDict (<["type" := PyStr "object"]>
    (<["properties" :=
         PyDict (<["email" := PyDict (<["type" := PyStr "string"]> ∅)]>
                (<["password" := PyDict (<["type" := PyStr "string"]> ∅)]> ∅))]>
    (<["required" := PyList [PyStr "email"; PyStr "password"]]> ∅))).

Definition validate (body schema : pyval) : Result unit :=
  match body with
  | PyDict d =>
      match d !! "email", d !! "password" with
      | Some (PyStr _), Some (PyStr _) => Ok tt
      | None, _ => Raise (ValidationError "'email' is a required property" schema)
      | _, None => Raise (ValidationError "'password' is a required property" schema)
      | Some (PyInt 1), Some (PyStr _) =>
          Raise (ValidationError "1 is not of type 'string'"
                   (PyDict (<["type" := PyStr "string"]> ∅)))
      | _, _ => Raise (ValidationError "value is not of type 'string'"
                         (PyDict (<["type" := PyStr "string"]> ∅)))
      end
  | _ => Raise (ValidationError "value is not of type 'object'" schema)
  end.

Definition craft_token (_ : unit) (credentials _ _ : pyval) : Result string :=
  match credentials with
  | PyDict d =>
      match d !! "email", d !! "password" with
      | Some (PyStr "a@b.com"), Some (PyStr "pw") => Ok "abc"
      | _, _ => Raise (ErtisError "errors.wrongUsernameOrPassword"
                         "Password mismatch" 401 None)
      end
  | _ => Raise (TypeError "credentials")
  end.

(** [str] on the values a version setting takes here. *)
Definition py_str (v : pyval) : string :=
  match v with
  | PyStr s => s
  | PyNone => "None"
  | PyBool true => "True"
  | PyBool false => "False"
  | _ => "?"
  end.

Definition service_refresh_token (user : string) (_ _ : pyval)
    : Result string := Ok ("new-token-for-" +:+ user).

End Sample.

(** * Properties *)

(** ** Splitting a header *)

Lemma split_cons (sep : ascii) (s : string) : split sep s <> [].
Proof.
  destruct s as [|c s]; cbn; [discriminate|].
  destruct (Ascii.eqb c sep); [discriminate|].
  destruct (split sep s); discriminate.
Qed.

(** A string without the separator is a single piece. *)
Lemma split_without_sep (sep : ascii) (s : string) :
  (forall c, In c (list_ascii_of_string s) -> c <> sep) -> split sep s = [s].
Proof.
  induction s as [|c s IH]; intros H; cbn; [reflexivity|].
  destruct (Ascii.eqb_spec c sep) as [->|_].
  - exfalso. apply (H sep); [left|]; reflexivity.
  - rewrite IH; [reflexivity|]. intros c' Hc'. apply H. right. exact Hc'.
Qed.

(** Splitting at the first separator. *)
Lemma split_app (sep : ascii) (a b : string) :
  (forall c, In c (list_ascii_of_string a) -> c <> sep) ->
  split sep (a +:+ String sep b) = a :: split sep b.
Proof.
  induction a as [|c a IH]; intros H.
  - change (EmptyString +:+ String sep b) with (String sep b). cbn.
    rewrite Ascii.eqb_refl. reflexivity.
  - change (String c a +:+ String sep b) with (String c (a +:+ String sep b)).
    cbn. destruct (Ascii.eqb_spec c sep) as [->|_].
    + exfalso. apply (H sep); [left|]; reflexivity.
    + rewrite IH; [reflexivity|]. intros c' Hc'. apply H. right. exact Hc'.
Qed.

(** A single piece is the whole string, and holds no separator. *)
Lemma split_single (sep : ascii) (s p : string) :
  split sep s = [p] ->
  s = p /\ forall c, In c (list_ascii_of_string p) -> c <> sep.
Proof.
  revert p. induction s as [|c s IH]; intros p; cbn.
  - intros [= <-]. split; [reflexivity|]. intros c [].
  - destruct (Ascii.eqb_spec c sep) as [->|Hc].
    + intros [= _ Hrest]. exfalso. exact (split_cons _ _ Hrest).
    + destruct (split sep s) as [|q qs] eqn:Hs.
      * exfalso. exact (split_cons _ _ Hs).
      * intros [= <- ->]. destruct (IH q eq_refl) as [-> Hq].
        split; [reflexivity|].
        intros c' [<- | Hin]; [assumption | apply Hq; assumption].
Qed.

(** The headers the gate lets through are exactly [scheme credential] with
    one space character in all. *)
Lemma split_two_iff (h scheme credential : string) :
  split " " h = [scheme; credential] <->
  h = scheme +:+ " " +:+ credential /\
  (forall c, In c (list_ascii_of_string scheme) -> c <> " "%char) /\
  (forall c, In c (list_ascii_of_string credential) -> c <> " "%char).
Proof.
  split.
  - revert scheme. induction h as [|c h IH]; intros scheme; cbn.
    + discriminate.
    + destruct (Ascii.eqb_spec c " ") as [->|Hc].
      * intros [= <- Hrest].
        destruct (split_single _ _ _ Hrest) as [-> Hcr].
        split; [reflexivity|]. split; [intros c []|assumption].
      * destruct (split " " h) as [|p ps] eqn:Hs.
        -- exfalso. exact (split_cons _ _ Hs).
        -- intros [= <- ->].
           destruct (IH p eq_refl) as (-> & Hp & Hcr).
           split; [reflexivity|]. split; [|assumption].
           intros c' [<- | Hin]; [assumption | apply Hp; assumption].
  - intros (-> & Hs & Hc).
    change (scheme +:+ " " +:+ credential)
      with (scheme +:+ String " " credential).
    rewrite split_app by assumption.
    rewrite split_without_sep by assumption. reflexivity.
Qed.

(** ** The generated endpoints *)

Lemma bind_ok {E A B : Type} (t : list E) (a : A) (k : A -> M E B) :
  ((t, Ok a) ≫= k) = (t ++ trace (k a), outcome (k a)).
Proof. unfold mbind, M_bind, trace, outcome. destruct (k a); reflexivity. Qed.

Lemma bind_raise {E A B : Type} (t : list E) (e : PyException) (k : A -> M E B) :
  ((t, Raise e) ≫= k) = (t, Raise e).
Proof. reflexivity. Qed.

Lemma status_codes :
  getitem Api.STATUS_CODE_MAPPING "QUERY" = Ok 200 /\
  getitem Api.STATUS_CODE_MAPPING "READ" = Ok 200 /\
  getitem Api.STATUS_CODE_MAPPING "CREATE" = Ok 201 /\
  getitem Api.STATUS_CODE_MAPPING "UPDATE" = Ok 200 /\
  getitem Api.STATUS_CODE_MAPPING "DELETE" = Ok 204.
Proof. repeat split; reflexivity. Qed.

Ltac case_result :=
  match goal with
  | |- context [match ?r with Ok _ => _ | Raise _ => _ end] =>
      destruct r eqn:?; cbn in *
  | |- context [match ?p with (_, _) => _ end] =>
      is_var p; destruct p; cbn in *
  end.

Ltac absurd_split :=
  repeat match goal with
    | H : _ = ?p ++ _ :: _ |- _ => destruct p; simplify_eq/=
    end.

Ltac run_handler :=
  unfold Api.run_view, Api.query, Api.read, Api.create, Api.update,
    Api.delete, Api.call_service, Api.read_local, lift, call, raise in *;
  rewrite ?(proj1 status_codes), ?(proj1 (proj2 status_codes)),
    ?(proj1 (proj2 (proj2 status_codes))),
    ?(proj1 (proj2 (proj2 (proj2 status_codes)))),
    ?(proj2 (proj2 (proj2 (proj2 status_codes)))) in *.

Section ApiProperties.
Context {User Db GenericService Pipeline : Type}.
Variable load_user : Db -> pyval -> pyval -> pyval -> Result User.
Variable parse : Request -> Result (pyval * pyval * pyval * pyval * pyval).

Lemma gate_shape (self : Api.GenericErtisApi User Db GenericService Pipeline) req :
  (exists e, Api.gate load_user self req = ([], Raise e)) \/
  (exists token secret verify,
      Api.gate load_user self req =
      ([Api.EvLoadUser (Api.db (Api.app self)) token secret verify],
       load_user (Api.db (Api.app self)) token secret verify)).
Proof.
  unfold Api.gate, Api.ensure_token_provided, lift, getitem, raise, call.
  destruct (Api.settings self !! "application_secret") as [secret|]; [|left; eauto].
  destruct (Api.settings self !! "verify_token") as [verify|]; [|left; eauto].
  cbn.
  destruct (headers req !! "Authorization") as [h|]; [|left; eauto].
  destruct (String.eqb h ""); [left; eauto|].
  destruct (negb _); [left; eauto|].
  destruct (split " " h !! 1) as [tok|]; [|left; eauto].
  right. exists (PyStr tok), secret, verify.
  destruct (load_user _ _ _ _); reflexivity.
Qed.

(** C1: on a descriptor that is not anonymous, every call a handler places
    on the resource service comes after a [load_user] call that returned a
    user, the one the gate resolved; and when the gate raises, the handler
    ends with that same error and has called the resource service not
    once. *)
Theorem auth_before_service
    (self : Api.GenericErtisApi User Db GenericService Pipeline)
    (v : Api.View) (req : Request) (resource_id : string) :
  Api.allow_to_anonymous self = false ->
  let run := Api.run_view load_user parse self v req resource_id in
  (forall pre c post,
      trace run = pre ++ Api.EvService c :: post ->
      exists token secret verify u,
        Api.EvLoadUser (Api.db (Api.app self)) token secret verify ∈ pre /\
        load_user (Api.db (Api.app self)) token secret verify = Ok u /\
        outcome (Api.gate load_user self req) = Ok u) /\
  (forall e,
      outcome (Api.gate load_user self req) = Raise e ->
      outcome run = Raise e /\ Api.service_calls (trace run) = []).
Proof.
  intros Hanon run. subst run.
  destruct (gate_shape self req) as [[e0 Hg]|(tok & secret & verify & Hg)];
    destruct v; run_handler; rewrite Hanon, Hg; cbn;
    repeat case_result; unfold trace, outcome; cbn.
  all: split; [intros pre c post Hpre | intros e1 He1; simplify_eq/=; done].
  all: try (by absurd_split).
  all: destruct pre; simplify_eq/=.
  all: eexists _, _, _, _; split; [apply list_elem_of_here | eauto].
Qed.

(** C2, amended: a header that is absent or empty fails with a 401
    [errors.authorizationHeaderRequired]; a header that [split(' ')] does
    not cut in exactly two pieces fails with a 401
    [errors.invalidBearerTokenUsage]; otherwise the second piece goes to
    [load_user], whose result is the result of the gate. *)
Theorem auth_gate_contract (db : Db) (req : Request) (api_name : string)
    (secret verify : pyval) :
  let run :=
    Api.ensure_token_provided (GenericService := GenericService)
      (Pipeline := Pipeline) load_user db req api_name secret verify in
  (headers req !! "Authorization" = None \/
   headers req !! "Authorization" = Some "" ->
     run = raise (ErtisError "errors.authorizationHeaderRequired"
                    ("Authorization header is required for using this api<"
                       +:+ api_name +:+ ">") 401 None)) /\
  (forall h,
      headers req !! "Authorization" = Some h -> h <> "" ->
      length (split " " h) <> 2 ->
      run = raise (ErtisError "errors.invalidBearerTokenUsage"
                     "Bearer token usage is invalid" 401 None)) /\
  (forall h scheme credential,
      headers req !! "Authorization" = Some h ->
      split " " h = [scheme; credential] ->
      run = call (Api.EvLoadUser db (PyStr credential) secret verify)
                 (load_user db (PyStr credential) secret verify)).
Proof.
  intros run. subst run. unfold Api.ensure_token_provided.
  split; [|split].
  - intros [-> | ->]; reflexivity.
  - intros h -> Hne Hlen.
    destruct (String.eqb_spec h ""); [contradiction|].
    destruct (Nat.eqb_spec (length (split " " h)) 2); [contradiction|].
    reflexivity.
  - intros h scheme credential -> Hsplit.
    destruct (String.eqb_spec h "") as [-> | _]; [discriminate Hsplit|].
    rewrite Hsplit. reflexivity.
Qed.
(** The view registered for a method entry, and nothing else. *)
Lemma route_for_view
    (self : Api.GenericErtisApi User Db GenericService Pipeline)
    (v : Api.View) :
  (exists r, r ∈ Api.generate_endpoints self /\ Api.view_func r = v) <->
  Api.method_of v ∈ Api.methods self.
Proof.
  unfold Api.generate_endpoints, Api.generate_urls.
  split.
  - intros (r & Hin & <-).
    rewrite !elem_of_app in Hin.
    destruct Hin as [Hin|[Hin|[Hin|[Hin|Hin]]]];
      case_bool_decide; try (by apply elem_of_nil in Hin);
      apply list_elem_of_singleton in Hin; subst r; assumption.
  - intros Hin. destruct v; cbn in Hin; eexists;
      (split; [rewrite !elem_of_app|]).
    + left. rewrite bool_decide_eq_true_2 by assumption.
      apply list_elem_of_here.
    + reflexivity.
    + right; left. rewrite bool_decide_eq_true_2 by assumption.
      apply list_elem_of_here.
    + reflexivity.
    + do 2 right; left. rewrite bool_decide_eq_true_2 by assumption.
      apply list_elem_of_here.
    + reflexivity.
    + do 3 right; left. rewrite bool_decide_eq_true_2 by assumption.
      apply list_elem_of_here.
    + reflexivity.
    + do 4 right. rewrite bool_decide_eq_true_2 by assumption.
      apply list_elem_of_here.
    + reflexivity.
Qed.


(** C4, amended: after the gate has resolved a user, [create] and
    [update] call [post] and [put] with that user; [delete], [read] and
    [query] call [delete], [get] and [filter] with arguments among which
    the user does not figure. *)
Theorem user_threaded_to_post_and_put
    (self : Api.GenericErtisApi User Db GenericService Pipeline)
    (v : Api.View) (req : Request) (resource_id : string) (u : User) :
  Api.allow_to_anonymous self = false ->
  outcome (Api.gate load_user self req) = Ok u ->
  let calls :=
    Api.service_calls
      (trace (Api.run_view load_user parse self v req resource_id)) in
  let gs := Api.generic_service (Api.app self) in
  match v with
  | Api.Create =>
      calls = [Api.CallPost gs u (data req) (Api.resource_name self)
                 (Api.create_validation_schema self)
                 (Api.pipeline_functions self)]
  | Api.Update =>
      calls = [Api.CallPut gs u resource_id (data req)
                 (Api.resource_name self)
                 (Api.update_validation_schema self)
                 (Api.pipeline_functions self)]
  | Api.Delete =>
      calls = [Api.CallDelete gs resource_id (Api.resource_name self)
                 (Api.pipeline_functions self)]
  | Api.Read =>
      calls = [Api.CallGet gs resource_id (Api.resource_name self)]
  | Api.Query =>
      match parse req with
      | Ok (where_, select, limit, sort, skip) =>
          calls = [Api.CallFilter gs where_ select limit skip sort
                     (Api.resource_name self)]
      | Raise _ => calls = []
      end
  end.
Proof.
  intros Hanon Hu calls gs. subst calls gs.
  destruct (gate_shape self req) as [[e0 Hg]|(tok & secret & verify & Hg)];
    rewrite Hg in Hu; cbn in Hu; [discriminate|].
  destruct v; run_handler; rewrite Hanon, Hg, Hu; cbn;
    repeat case_result; reflexivity.
Qed.

(** On success the body of the response is what the one call on the
    resource service returned, and every view but [delete] passes
    [mimetype='application/json']. *)
Lemma response_shape
    (self : Api.GenericErtisApi User Db GenericService Pipeline)
    (v : Api.View) (req : Request) (resource_id : string)
    (t : list (Api.Event User Db GenericService Pipeline))
    (resp : Response) :
  Api.run_view load_user parse self v req resource_id = (t, Ok resp) ->
  (exists c,
      Api.service_calls t = [c] /\
      Api.invoke (Api.resource_service self) c = Ok (response resp)) /\
  mimetype resp =
  match v with
  | Api.Delete => None
  | _ => Some "application/json"
  end.
Proof.
  destruct v; run_handler;
    destruct (Api.allow_to_anonymous self);
    destruct (gate_shape self req)
      as [[e0 Hg]|(tok & secret & verify & Hg)]; rewrite Hg; cbn;
    repeat case_result; intros Hrun; simplify_eq/=;
    (split; [eexists; split; [reflexivity|eassumption] | reflexivity]).
Qed.

(** C6: a request that succeeds answers with the fixed status of its view,
    200 on QUERY, GET and PUT, 201 on POST and 204 on DELETE; and the
    request does succeed, with that status and the service's value as
    body, as soon as the gate has resolved a user (or the descriptor is
    anonymous, for QUERY, GET and DELETE), the query parser has returned,
    and the call on the resource service has returned. *)
Theorem success_status
    (self : Api.GenericErtisApi User Db GenericService Pipeline)
    (v : Api.View) (req : Request) (resource_id : string) :
  let run := Api.run_view load_user parse self v req resource_id in
  let gs := Api.generic_service (Api.app self) in
  let rs := Api.resource_service self in
  let name := Api.resource_name self in
  let pipeline := Api.pipeline_functions self in
  let code :=
    match v with
    | Api.Query => 200
    | Api.Read => 200
    | Api.Create => 201
    | Api.Update => 200
    | Api.Delete => 204
    end in
  let answer body :=
    {| response := body;
       mimetype := match v with
                   | Api.Delete => None
                   | _ => Some "application/json"
                   end;
       status := code |} in
  (forall t resp, run = (t, Ok resp) -> status resp = code) /\
  (forall u body,
      Api.allow_to_anonymous self = false ->
      outcome (Api.gate load_user self req) = Ok u ->
      match v with
      | Api.Query =>
          exists where_ select limit sort skip,
            parse req = Ok (where_, select, limit, sort, skip) /\
            Api.rs_filter _ _ _ rs gs where_ select limit skip sort name
            = Ok body
      | Api.Read => Api.rs_get _ _ _ rs gs resource_id name = Ok body
      | Api.Create =>
          Api.rs_post _ _ _ rs gs u (data req) name
            (Api.create_validation_schema self) pipeline = Ok body
      | Api.Update =>
          Api.rs_put _ _ _ rs gs u resource_id (data req) name
            (Api.update_validation_schema self) pipeline = Ok body
      | Api.Delete =>
          Api.rs_delete _ _ _ rs gs resource_id name pipeline = Ok body
      end ->
      outcome run = Ok (answer body)) /\
  (forall body,
      Api.allow_to_anonymous self = true ->
      match v with
      | Api.Query =>
          exists where_ select limit sort skip,
            parse req = Ok (where_, select, limit, sort, skip) /\
            Api.rs_filter _ _ _ rs gs where_ select limit skip sort name
            = Ok body
      | Api.Read => Api.rs_get _ _ _ rs gs resource_id name = Ok body
      | Api.Delete =>
          Api.rs_delete _ _ _ rs gs resource_id name pipeline = Ok body
      | Api.Create | Api.Update => False
      end ->
      outcome run = Ok (answer body)).
Proof.
  intros run gs rs name pipeline code answer.
  subst run gs rs name pipeline code answer. cbn zeta.
  split; [|split].
  - intros t resp.
    destruct v; run_handler;
      destruct (Api.allow_to_anonymous self);
      destruct (gate_shape self req)
        as [[e0 Hg]|(tok & secret & verify & Hg)]; rewrite Hg; cbn;
      repeat case_result; intros Hrun; simplify_eq/=; reflexivity.
  - intros u body Hanon Hu.
    destruct (gate_shape self req) as [[e0 Hg]|(tok & secret & verify & Hg)];
      rewrite Hg in Hu; cbn in Hu; [discriminate Hu|].
    destruct v; run_handler; rewrite Hanon, Hg, Hu; cbn.
    + intros (w & se & l & so & sk & Hparse & Hsvc).
      rewrite Hparse. cbn. rewrite Hsvc. reflexivity.
    + intros Hsvc. rewrite Hsvc. reflexivity.
    + intros Hsvc. rewrite Hsvc. reflexivity.
    + intros Hsvc. rewrite Hsvc. reflexivity.
    + intros Hsvc. rewrite Hsvc. reflexivity.
  - intros body Hanon.
    destruct v; run_handler; rewrite Hanon; cbn; try contradiction.
    + intros (w & se & l & so & sk & Hparse & Hsvc).
      rewrite Hparse. cbn. rewrite Hsvc. reflexivity.
    + intros Hsvc. rewrite Hsvc. reflexivity.
    + intros Hsvc. rewrite Hsvc. reflexivity.
Qed.

(** C9: on an anonymous descriptor that lists POST or PUT, the create or
    update route exists, and every request to it ends in
    [UnboundLocalError] for [user] with no call made at all, so the
    resource service is never reached. *)
Theorem anonymous_create_update_unbound
    (self : Api.GenericErtisApi User Db GenericService Pipeline)
    (v : Api.View) (req : Request) (resource_id : string) :
  Api.allow_to_anonymous self = true ->
  v = Api.Create \/ v = Api.Update ->
  Api.method_of v ∈ Api.methods self ->
  (exists r, r ∈ Api.generate_endpoints self /\ Api.view_func r = v) /\
  Api.run_view load_user parse self v req resource_id =
  raise (UnboundLocalError "user").
Proof.
  intros Hanon Hv Hm. split; [apply route_for_view; exact Hm|].
  destruct Hv as [-> | ->]; run_handler; rewrite Hanon; reflexivity.
Qed.
End ApiProperties.



(** ** The token endpoints *)

Section TokensProperties.
Context {User Db GenericService : Type}.
Variable json_loads : string -> Result pyval.
Variable json_dumps : pyval -> string.
Variable validate : pyval -> pyval -> Result unit.
Variable CREATE_TOKEN_SCHEMA : pyval.
Variable load_user : Db -> pyval -> pyval -> pyval -> Result User.
Variable craft_token :
  GenericService -> pyval -> pyval -> pyval -> Result string.
Variable service_refresh_token : User -> pyval -> pyval -> Result string.
Variable app : Api.App Db GenericService.
Variable settings : gmap string pyval.

Local Abbreviation create_token :=
  (Tokens.create_token (User := User) json_loads json_dumps validate
     CREATE_TOKEN_SCHEMA craft_token app settings).
Local Abbreviation refresh_token :=
  (Tokens.refresh_token json_loads json_dumps load_user
     service_refresh_token app settings).

(** C10: when [json.loads] rejects the body, [create_token] ends with
    that very [ValueError], which carries no status and is no
    [ErtisError], while [refresh_token] turns the same failure into a 400
    [errors.badRequest]. *)
Theorem create_token_invalid_json (req : Request) (msg : string) :
  json_loads (data req) = Raise (ValueError msg) ->
  create_token req = raise (ValueError msg) /\
  status_of (ValueError msg) = None /\
  refresh_token req =
  raise (ErtisError "errors.badRequest" "Invalid json provided" 400
           (Some (<["message" := PyStr msg]> ∅))).
Proof.
  intros Hjson. unfold Tokens.create_token, Tokens.refresh_token, lift.
  rewrite Hjson. repeat split; reflexivity.
Qed.

(** C8, amended: when [validate] raises a [ValidationError], the handler
    fails with a 400 [errors.validationError] carrying the error's message,
    whose context holds the [required] and [properties] entries of the
    schema the error reports as violated ([e.schema], a sub-schema of the
    create-token schema when the violation is inside a property), [[]] and
    [{}] when it has none; when that schema is no JSON object,
    [e.schema.get] raises [AttributeError] instead. A body the schema
    accepts, with its [email] and [password], has [craft_token] called on
    exactly those two credentials, and the token it returns is answered
    as [{"token": token}] with status 200. *)
Theorem create_token_contract (req : Request) (body : pyval) :
  json_loads (data req) = Ok body ->
  (forall message schema,
      validate body CREATE_TOKEN_SCHEMA =
      Raise (ValidationError message schema) ->
      create_token req =
      match schema with
      | PyDict d =>
          raise (ErtisError "errors.validationError" message 400
                   (Some (<["required" :=
                              default (PyList []) (d !! "required")]>
                            (<["properties" :=
                                 default (PyDict ∅) (d !! "properties")]>
                               ∅))))
      | _ => raise (AttributeError "get")
      end) /\
  (forall email password secret ttl token,
      validate body CREATE_TOKEN_SCHEMA = Ok tt ->
      py_getitem body "email" = Ok email ->
      py_getitem body "password" = Ok password ->
      settings !! "application_secret" = Some secret ->
      settings !! "token_ttl" = Some ttl ->
      let credentials :=
        PyDict (<["email" := email]> (<["password" := password]> ∅)) in
      craft_token (Api.generic_service app) credentials secret ttl =
      Ok token ->
      create_token req =
      ([Tokens.EvCraftToken (Api.generic_service app) credentials secret ttl],
       Ok {| response := json_dumps (PyDict (<["token" := PyStr token]> ∅));
             mimetype := Some "application/json";
             status := 200 |})).
Proof.
  intros Hjson. unfold Tokens.create_token, lift, call, raise, getitem.
  rewrite Hjson. cbn. split.
  - intros message schema ->. cbn.
    destruct schema as [| | | | | |d]; reflexivity.
  - intros email password secret ttl token -> -> -> -> -> ->.
    reflexivity.
Qed.

(** X18: what [refresh_token] does on a body that does not parse and on
    one that parses to a JSON object: 400 [errors.badRequest]; 400
    [errors.tokenRequired] when the token is missing or falsy; the error of
    [load_user] unchanged; else 201 with the new token. *)
Lemma refresh_token_on_objects (req : Request) :
  (forall msg,
      json_loads (data req) = Raise (ValueError msg) ->
      refresh_token req =
      raise (ErtisError "errors.badRequest" "Invalid json provided" 400
               (Some (<["message" := PyStr msg]> ∅)))) /\
  (forall d,
      json_loads (data req) = Ok (PyDict d) ->
      truthy (default PyNone (d !! "token")) = false ->
      refresh_token req =
      raise (ErtisError "errors.tokenRequired" "Token is required" 400 None)) /\
  (forall d token secret verify e,
      json_loads (data req) = Ok (PyDict d) ->
      d !! "token" = Some token -> truthy token = true ->
      settings !! "application_secret" = Some secret ->
      settings !! "verify_token" = Some verify ->
      load_user (Api.db app) token secret verify = Raise e ->
      refresh_token req =
      ([Tokens.EvLoadUser (Api.db app) token secret verify], Raise e)) /\
  (forall d token secret verify ttl user new_token,
      json_loads (data req) = Ok (PyDict d) ->
      d !! "token" = Some token -> truthy token = true ->
      settings !! "application_secret" = Some secret ->
      settings !! "verify_token" = Some verify ->
      settings !! "token_ttl" = Some ttl ->
      load_user (Api.db app) token secret verify = Ok user ->
      service_refresh_token user secret ttl = Ok new_token ->
      refresh_token req =
      ([Tokens.EvLoadUser (Api.db app) token secret verify;
        Tokens.EvRefreshToken user secret ttl],
       Ok {| response :=
               json_dumps (PyDict (<["token" := PyStr new_token]> ∅));
             mimetype := Some "application/json";
             status := 201 |})).
Proof.
  unfold Tokens.refresh_token, lift, call, raise, getitem, py_get.
  repeat split.
  - intros msg ->. reflexivity.
  - intros d -> Htoken. cbn -[lookup].
    destruct (d !! "token"); cbn -[lookup] in Htoken |- *;
      [rewrite Htoken|]; reflexivity.
  - intros d token secret verify e -> Htoken Htruthy Hsecret Hverify Hload.
    cbn -[lookup]. rewrite Htoken, Htruthy. cbn -[lookup].
    rewrite Hsecret, Hverify. cbn -[lookup]. rewrite Hload. reflexivity.
  - intros d token secret verify ttl user new_token
      -> Htoken Htruthy Hsecret Hverify Httl Hload Hnew.
    cbn -[lookup]. rewrite Htoken, Htruthy. cbn -[lookup].
    rewrite Hsecret, Hverify. cbn -[lookup]. rewrite Hload. cbn -[lookup].
    rewrite Httl. cbn -[lookup]. rewrite Hnew. reflexivity.
Qed.

(** X17: a body that parses to anything but a JSON object stops
    [refresh_token] at [body.get] with [AttributeError], before any
    call. *)
Lemma refresh_token_not_object (req : Request) (body : pyval) :
  json_loads (data req) = Ok body ->
  (forall d, body <> PyDict d) ->
  refresh_token req = raise (AttributeError "get").
Proof.
  intros Hjson Hbody. unfold Tokens.refresh_token. rewrite Hjson.
  destruct body; try reflexivity. exfalso. exact (Hbody d eq_refl).
Qed.
End TokensProperties.

(** ** The statements on the sample deployment *)

Example split_bearer : split " " "Bearer abc" = ["Bearer"; "abc"].
Proof. reflexivity. Qed.

Example split_two_spaces : split " " "Bearer  abc" = ["Bearer"; ""; "abc"].
Proof. reflexivity. Qed.

Example split_empty : split " " "" = [""].
Proof. reflexivity. Qed.

Example whitespace_tokens_two_spaces :
  whitespace_tokens "Bearer  abc" = ["Bearer"; "abc"].
Proof. reflexivity. Qed.

(** A request without a header on the non-anonymous [users] resource: the
    gate raises its 401 and [delete] never reaches the service. *)
Lemma auth_before_service_witness :
  let run :=
    Api.run_view Sample.load_user Sample.parse
      (Sample.users Sample.all_methods false) Api.Delete
      (Sample.request None "") "42" in
  outcome run =
  Raise (ErtisError "errors.authorizationHeaderRequired"
           "Authorization header is required for using this api<users>"
           401 None) /\
  Api.service_calls (trace run) = [].
Proof.
  apply (auth_before_service Sample.load_user Sample.parse
           (Sample.users Sample.all_methods false) Api.Delete
           (Sample.request None "") "42").
  - reflexivity.
  - reflexivity.
Defined.

(** C2 as the specification words it fails on [Bearer  abc], written with
    two spaces: two whitespace-separated tokens, yet the gate raises
    [errors.invalidBearerTokenUsage] and [load_user] is not called. *)
Lemma auth_gate_as_stated_fails :
  ~ auth_gate_as_stated (GenericService := unit) (Pipeline := unit)
      Sample.load_user tt (Sample.request (Some "Bearer  abc") "") "users"
      (PyStr "s3cret") (PyBool true).
Proof.
  unfold auth_gate_as_stated. intros H. vm_compute in H. discriminate H.
Qed.

(** The header [Bearer abc] sends [abc] to [load_user]. *)
Lemma auth_gate_contract_witness :
  Api.ensure_token_provided (GenericService := unit) (Pipeline := unit)
    Sample.load_user tt (Sample.request (Some "Bearer abc") "") "users"
    (PyStr "s3cret") (PyBool true) =
  ([Api.EvLoadUser tt (PyStr "abc") (PyStr "s3cret") (PyBool true)],
   Ok "alice").
Proof.
  apply (proj2 (proj2 (auth_gate_contract (GenericService := unit)
                         (Pipeline := unit) Sample.load_user tt
                         (Sample.request (Some "Bearer abc") "") "users"
                         (PyStr "s3cret") (PyBool true)))
           "Bearer abc" "Bearer" "abc").
  - reflexivity.
  - reflexivity.
Defined.


(** C4 as the specification words it fails on DELETE: [alice] is resolved
    by the gate and the call on the service carries no user. *)
Lemma user_threading_as_stated_fails :
  ~ user_threading_as_stated Sample.load_user Sample.parse
      (Sample.users Sample.all_methods false) Api.Delete
      (Sample.request (Some "Bearer abc") "") "42".
Proof.
  unfold user_threading_as_stated. intros H.
  specialize (H "alice" eq_refl (Api.CallDelete tt "42" "users" None)).
  assert (Hin : Api.CallDelete (User := string) tt "42" "users" None
                ∈ [Api.CallDelete (User := string) (Pipeline := unit)
                     tt "42" "users" None])
    by apply list_elem_of_here.
  specialize (H Hin). discriminate H.
Qed.

(** With the token of [alice], [create] hands [alice] to [post]. *)
Lemma user_threaded_to_post_and_put_witness :
  Api.service_calls
    (trace (Api.run_view Sample.load_user Sample.parse
              (Sample.users Sample.all_methods false) Api.Create
              (Sample.request (Some "Bearer abc") "{}") "")) =
  [Api.CallPost tt "alice" "{}" "users" None None].
Proof.
  apply (user_threaded_to_post_and_put Sample.load_user Sample.parse
           (Sample.users Sample.all_methods false) Api.Create
           (Sample.request (Some "Bearer abc") "{}") "" "alice").
  - reflexivity.
  - reflexivity.
Defined.

(** C5 on DELETE: the response carries the value the service returned and
    204, but no mimetype was passed, so its content type is the default
    [text/html] and not [application/json]. *)
Theorem delete_response_is_not_json :
  let run :=
    Api.run_view Sample.load_user Sample.parse
      (Sample.users Sample.all_methods false) Api.Delete
      (Sample.request (Some "Bearer abc") "") "42" in
  run =
  ([Api.EvLoadUser tt (PyStr "abc") (PyStr "s3cret") (PyBool true);
    Api.EvService (Api.CallDelete tt "42" "users" None)],
   Ok {| response := ""; mimetype := None; status := 204 |}) /\
  (forall resp, outcome run = Ok resp ->
     content_type resp = "text/html" /\
     content_type resp <> "application/json").
Proof.
  split; [reflexivity|].
  intros resp Hresp. vm_compute in Hresp. injection Hresp as <-.
  split; [reflexivity | discriminate].
Qed.

(** With the token of [alice], a POST whose service call returns answers
    201 and a DELETE answers 204. *)
Lemma success_status_witness :
  outcome (Api.run_view Sample.load_user Sample.parse
             (Sample.users Sample.all_methods false) Api.Create
             (Sample.request (Some "Bearer abc") "{}") "") =
  Ok {| response := "{}";
        mimetype := Some "application/json";
        status := 201 |} /\
  outcome (Api.run_view Sample.load_user Sample.parse
             (Sample.users Sample.all_methods false) Api.Delete
             (Sample.request (Some "Bearer abc") "") "42") =
  Ok {| response := ""; mimetype := None; status := 204 |}.
Proof.
  split.
  - apply (proj1 (proj2 (success_status Sample.load_user Sample.parse
                           (Sample.users Sample.all_methods false) Api.Create
                           (Sample.request (Some "Bearer abc") "{}") ""))
             "alice" "{}").
    + reflexivity.
    + reflexivity.
    + reflexivity.
  - apply (proj1 (proj2 (success_status Sample.load_user Sample.parse
                           (Sample.users Sample.all_methods false) Api.Delete
                           (Sample.request (Some "Bearer abc") "") "42"))
             "alice" "").
    + reflexivity.
    + reflexivity.
    + reflexivity.
Defined.

(** An anonymous [users] resource that lists POST: the create route is
    there and a request to it ends in [UnboundLocalError]. *)
Lemma anonymous_create_update_unbound_witness :
  (exists r,
      r ∈ Api.generate_endpoints (Sample.users ["GET"; "POST"] true) /\
      Api.view_func r = Api.Create) /\
  Api.run_view Sample.load_user Sample.parse
    (Sample.users ["GET"; "POST"] true) Api.Create
    (Sample.request None "{}") "" =
  raise (UnboundLocalError "user").
Proof.
  apply (anonymous_create_update_unbound Sample.load_user Sample.parse
           (Sample.users ["GET"; "POST"] true) Api.Create
           (Sample.request None "{}") "").
  - reflexivity.
  - left. reflexivity.
  - cbn. apply list_elem_of_further, list_elem_of_here.
Defined.

(** C7 on the body [[]]: it is valid JSON without a token field, and
    [refresh_token] ends in [AttributeError] at [body.get], an error with no
    status, instead of the 400 [errors.tokenRequired]. *)
Theorem refresh_token_on_array :
  Sample.json_loads "[]" = Ok (PyList []) /\
  Tokens.refresh_token Sample.json_loads Sample.json_dumps Sample.load_user
    Sample.service_refresh_token Sample.app Sample.settings
    (Sample.request None "[]") =
  raise (AttributeError "get") /\
  status_of (AttributeError "get") = None.
Proof. repeat split; reflexivity. Qed.

(** The amended C8 on three bodies: an email alone is rejected against the
    create-token schema, whose [required] and [properties] fill the
    context; an email of the wrong type is rejected against the sub-schema
    of the property, and the context holds [[]] and [{}]; email and
    password get the token [abc] back with status 200. *)
Lemma create_token_contract_witness :
  Tokens.create_token (User := string) Sample.json_loads Sample.json_dumps
    Sample.validate Sample.CREATE_TOKEN_SCHEMA Sample.craft_token Sample.app
    Sample.settings (Sample.request None Sample.partial_body) =
  raise (ErtisError "errors.validationError"
           "'password' is a required property" 400
           (Some (<["required" := PyList [PyStr "email"; PyStr "password"]]>
                    (<["properties" :=
                         PyDict (<["email" := PyDict (<["type" := PyStr "string"]> ∅)]>
                                (<["password" := PyDict (<["type" := PyStr "string"]> ∅)]> ∅))]>
                       ∅)))) /\
  Tokens.create_token (User := string) Sample.json_loads Sample.json_dumps
    Sample.validate Sample.CREATE_TOKEN_SCHEMA Sample.craft_token Sample.app
    Sample.settings (Sample.request None Sample.wrong_type_body) =
  raise (ErtisError "errors.validationError" "1 is not of type 'string'" 400
           (Some (<["required" := PyList []]>
                    (<["properties" := PyDict ∅]> ∅)))) /\
  Tokens.create_token (User := string) Sample.json_loads Sample.json_dumps
    Sample.validate Sample.CREATE_TOKEN_SCHEMA Sample.craft_token Sample.app
    Sample.settings (Sample.request None Sample.login_body) =
  ([Tokens.EvCraftToken tt
      (PyDict (<["email" := PyStr "a@b.com"]> (<["password" := PyStr "pw"]> ∅)))
      (PyStr "s3cret") (PyInt 60)],
   Ok {| response := Sample.refresh_body;
         mimetype := Some "application/json";
         status := 200 |}).
Proof.
  split; [|split].
  - rewrite (proj1 (create_token_contract (User := string) Sample.json_loads
                      Sample.json_dumps Sample.validate
                      Sample.CREATE_TOKEN_SCHEMA Sample.craft_token Sample.app
                      Sample.settings
                      (Sample.request None Sample.partial_body)
                      (PyDict (<["email" := PyStr "a@b.com"]> ∅)) eq_refl)
               "'password' is a required property"
               Sample.CREATE_TOKEN_SCHEMA eq_refl).
    reflexivity.
  - rewrite (proj1 (create_token_contract (User := string) Sample.json_loads
                      Sample.json_dumps Sample.validate
                      Sample.CREATE_TOKEN_SCHEMA Sample.craft_token Sample.app
                      Sample.settings
                      (Sample.request None Sample.wrong_type_body)
                      (PyDict (<["email" := PyInt 1]>
                                 (<["password" := PyStr "pw"]> ∅))) eq_refl)
               "1 is not of type 'string'"
               (PyDict (<["type" := PyStr "string"]> ∅)) eq_refl).
    reflexivity.
  - rewrite (proj2 (create_token_contract (User := string) Sample.json_loads
                      Sample.json_dumps Sample.validate
                      Sample.CREATE_TOKEN_SCHEMA Sample.craft_token Sample.app
                      Sample.settings
                      (Sample.request None Sample.login_body)
                      (PyDict (<["email" := PyStr "a@b.com"]>
                                 (<["password" := PyStr "pw"]> ∅))) eq_refl)
               (PyStr "a@b.com") (PyStr "pw") (PyStr "s3cret") (PyInt 60)
               "abc" eq_refl eq_refl eq_refl eq_refl eq_refl eq_refl).
    reflexivity.
Defined.

(** C8 as the specification words it fails on the body
    [{"email": 1, "password": "pw"}]: the error is reported against the
    sub-schema [{"type": "string"}] of the email property, so the context
    holds an empty [required] and empty [properties], not the two required
    fields of the create-token schema. *)
Lemma validation_context_as_stated_fails :
  ~ validation_context_as_stated (User := string) Sample.json_loads
      Sample.json_dumps Sample.validate Sample.CREATE_TOKEN_SCHEMA
      Sample.craft_token Sample.app Sample.settings
      (Sample.request None Sample.wrong_type_body).
Proof.
  intros H.
  destruct (H (PyDict (<["email" := PyInt 1]> (<["password" := PyStr "pw"]> ∅)))
              "1 is not of type 'string'"
              (PyDict (<["type" := PyStr "string"]> ∅)) eq_refl eq_refl)
    as (msg & context & required & properties
        & Hout & Hreq & _ & Hctx & _).
  vm_compute in Hout, Hreq.
  injection Hout as _ <-. injection Hreq as <-.
  vm_compute in Hctx. discriminate Hctx.
Qed.

(** The truncated body [{]: [create_token] ends in the [ValueError],
    [refresh_token] in a 400. *)
Lemma create_token_invalid_json_witness :
  Tokens.create_token (User := string) Sample.json_loads Sample.json_dumps
    Sample.validate Sample.CREATE_TOKEN_SCHEMA Sample.craft_token Sample.app
    Sample.settings (Sample.request None "{") =
  raise (ValueError "Expecting property name enclosed in double quotes: line 1 column 2 (char 1)").
Proof.
  apply (proj1 (create_token_invalid_json (User := string) Sample.json_loads
                  Sample.json_dumps Sample.validate Sample.CREATE_TOKEN_SCHEMA
                  Sample.load_user Sample.craft_token
                  Sample.service_refresh_token Sample.app Sample.settings
                  (Sample.request None "{") _ eq_refl)).
Defined.

(** ** More on the auth gate *)

(** Every separator starts a new piece. *)
Lemma split_length (sep : ascii) (s : string) :
  length (split sep s) = S (count_occ ascii_dec (list_ascii_of_string s) sep).
Proof.
  induction s as [|c s IH]; cbn; [reflexivity|].
  destruct (Ascii.eqb_spec c sep) as [->|Hc].
  - destruct (ascii_dec sep sep) as [_|Hne]; [|contradiction].
    cbn. rewrite IH. reflexivity.
  - destruct (ascii_dec c sep) as [Heq|_]; [contradiction|].
    destruct (split sep s) as [|p ps] eqn:Hs.
    + exfalso. exact (split_cons _ _ Hs).
    + cbn in IH |- *. exact IH.
Qed.

Section GateProperties.
Context {User Db GenericService Pipeline : Type}.
Variable load_user : Db -> pyval -> pyval -> pyval -> Result User.

Local Abbreviation ensure_token_provided :=
  (Api.ensure_token_provided (GenericService := GenericService)
     (Pipeline := Pipeline) load_user).

(** X1: the gate reaches [load_user] exactly when the request has an
    Authorization header holding one space character in all. *)
Theorem gate_calls_load_user_iff_one_space (db : Db) (req : Request)
    (api_name : string) (secret verify : pyval) :
  trace (ensure_token_provided db req api_name secret verify) <> [] <->
  exists h,
    headers req !! "Authorization" = Some h /\
    count_occ ascii_dec (list_ascii_of_string h) " "%char = 1.
Proof.
  unfold Api.ensure_token_provided, raise, call, trace.
  destruct (headers req !! "Authorization") as [h|]; cbn.
  2: { split; [intros H; contradiction | intros (h & [=] & _)]. }
  destruct (String.eqb_spec h "") as [->|Hne]; cbn.
  { split; [intros H; contradiction | intros (h & [= <-] & Hc); discriminate Hc]. }
  pose proof (split_length " " h) as Hlen.
  destruct (Nat.eqb_spec (length (split " " h)) 2) as [H2|H2]; cbn.
  - destruct (split " " h) as [|a [|b [|]]]; try discriminate H2. cbn.
    split; [intros _|intros _; discriminate].
    exists h. split; [reflexivity|]. cbn in Hlen. lia.
  - split; [intros H; contradiction|].
    intros (h' & [= <-] & Hc). rewrite Hc in Hlen. contradiction.
Qed.

(** X2: the word before the space is never looked at: whatever the
    scheme, even an empty one, the text after the space is what
    [load_user] receives, and its result is the result of the gate. *)
Theorem gate_ignores_scheme (db : Db) (req : Request) (api_name : string)
    (secret verify : pyval) (scheme credential : string) :
  headers req !! "Authorization" = Some (scheme +:+ " " +:+ credential) ->
  (forall c, In c (list_ascii_of_string scheme) -> c <> " "%char) ->
  (forall c, In c (list_ascii_of_string credential) -> c <> " "%char) ->
  ensure_token_provided db req api_name secret verify =
  call (Api.EvLoadUser db (PyStr credential) secret verify)
       (load_user db (PyStr credential) secret verify).
Proof.
  intros Hh Hs Hc. unfold Api.ensure_token_provided. rewrite Hh.
  assert (Hsplit : split " " (scheme +:+ " " +:+ credential)
                   = [scheme; credential])
    by (apply split_two_iff; auto).
  destruct (String.eqb_spec (scheme +:+ " " +:+ credential) "") as [He|_].
  { rewrite He in Hsplit. discriminate Hsplit. }
  rewrite Hsplit. reflexivity.
Qed.

(** X3: the gate either raises one of its two 401 errors without calling
    anything, or makes one [load_user] call on a piece of the header and
    returns what that call returns, user or error, unchanged; it never
    fails on the index into the split header. *)
Theorem gate_raises_401_or_defers (db : Db) (req : Request)
    (api_name : string) (secret verify : pyval) :
  let run := ensure_token_provided db req api_name secret verify in
  (trace run = [] /\
   exists code msg,
     outcome run = Raise (ErtisError code msg 401 None) /\
     (code = "errors.authorizationHeaderRequired" \/
      code = "errors.invalidBearerTokenUsage")) \/
  (exists token,
      run = call (Api.EvLoadUser db (PyStr token) secret verify)
                 (load_user db (PyStr token) secret verify)).
Proof.
  unfold Api.ensure_token_provided, raise, trace, outcome.
  destruct (headers req !! "Authorization") as [h|]; cbn.
  2: { left. split; [reflexivity|]. eexists _, _. split; [reflexivity|]. left. reflexivity. }
  destruct (String.eqb h ""); cbn.
  { left. split; [reflexivity|]. eexists _, _. split; [reflexivity|]. left. reflexivity. }
  destruct (Nat.eqb_spec (length (split " " h)) 2) as [H2|H2]; cbn.
  - destruct (split " " h) as [|a [|b [|]]]; try discriminate H2. cbn.
    right. exists b. reflexivity.
  - left. split; [reflexivity|]. eexists _, _. split; [reflexivity|]. right. reflexivity.
Qed.
End GateProperties.

(** ** More on the generated handlers *)

Section HandlerProperties.
Context {User Db GenericService Pipeline : Type}.
Variable load_user : Db -> pyval -> pyval -> pyval -> Result User.
Variable parse : Request -> Result (pyval * pyval * pyval * pyval * pyval).

(** X4: on a descriptor that is not anonymous, a settings dictionary
    without [application_secret], or with it and without [verify_token],
    makes every view end in [KeyError] for that key before the header is
    read or anything is called. *)
Theorem missing_setting_is_key_error
    (self : Api.GenericErtisApi User Db GenericService Pipeline)
    (v : Api.View) (req : Request) (resource_id : string) :
  Api.allow_to_anonymous self = false ->
  let run := Api.run_view load_user parse self v req resource_id in
  (Api.settings self !! "application_secret" = None ->
   run = raise (KeyError "application_secret")) /\
  (is_Some (Api.settings self !! "application_secret") ->
   Api.settings self !! "verify_token" = None ->
   run = raise (KeyError "verify_token")).
Proof.
  intros Hanon run. subst run. split.
  - intros Hs. destruct v; run_handler; rewrite Hanon;
      unfold Api.gate, lift, getitem; rewrite Hs; reflexivity.
  - intros [secret Hs] Hv. destruct v; run_handler; rewrite Hanon;
      unfold Api.gate, lift, getitem; rewrite Hs, Hv; reflexivity.
Qed.

(** X5: on an anonymous descriptor no view calls [load_user], and [read]
    and [delete] answer the same whatever the request carries: header and
    body are never read. *)
Theorem anonymous_views_skip_authentication
    (self : Api.GenericErtisApi User Db GenericService Pipeline)
    (v : Api.View) (req : Request) (resource_id : string) :
  Api.allow_to_anonymous self = true ->
  (forall db token secret verify,
      Api.EvLoadUser db token secret verify
      ∉ trace (Api.run_view load_user parse self v req resource_id)) /\
  (v = Api.Read \/ v = Api.Delete ->
   forall req',
     Api.run_view load_user parse self v req' resource_id =
     Api.run_view load_user parse self v req resource_id).
Proof.
  intros Hanon. split.
  - intros d token secret verify.
    destruct v; run_handler; rewrite Hanon; cbn;
      repeat case_result; unfold trace; cbn;
      rewrite ?elem_of_cons, ?elem_of_nil; intros H;
      repeat (destruct H as [H|H]; try discriminate H); try contradiction.
  - intros [-> | ->] req'; run_handler; rewrite Hanon; reflexivity.
Qed.

(** X6: a view calls the resource service at most once. Without a call
    the request fails; with one, the outcome is the service's: its value
    becomes the body of a response with the status and mimetype of the
    view, its exception leaves the handler unchanged. *)
Theorem handler_outcome_follows_service
    (self : Api.GenericErtisApi User Db GenericService Pipeline)
    (v : Api.View) (req : Request) (resource_id : string) :
  let run := Api.run_view load_user parse self v req resource_id in
  (Api.service_calls (trace run) = [] /\ exists e, outcome run = Raise e) \/
  (exists c,
      Api.service_calls (trace run) = [c] /\
      outcome run =
      match Api.invoke (Api.resource_service self) c with
      | Ok body =>
          Ok {| response := body;
                mimetype := match v with
                            | Api.Delete => None
                            | _ => Some "application/json"
                            end;
                status := match v with
                          | Api.Create => 201
                          | Api.Delete => 204
                          | _ => 200
                          end |}
      | Raise e => Raise e
      end).
Proof.
  intros run. subst run.
  destruct v; run_handler;
    destruct (Api.allow_to_anonymous self);
    destruct (gate_shape load_user self req)
      as [[e0 Hg]|(tok & secret & verify & Hg)]; rewrite Hg; cbn;
    repeat case_result; unfold trace, outcome; cbn;
    first [ left; split; [reflexivity | eexists; reflexivity]
          | right; eexists; split; [reflexivity|]; cbn;
            match goal with H : _ = _ |- _ => rewrite H end; reflexivity ].
Qed.

(** X7: [query] parses the request only after the gate has passed, and a
    parser error ends the request with that error before the service is
    called. *)
Theorem query_parses_after_authentication
    (self : Api.GenericErtisApi User Db GenericService Pipeline)
    (req : Request) :
  let run := Api.query load_user parse self req in
  (Api.allow_to_anonymous self = false ->
   forall e, outcome (Api.gate load_user self req) = Raise e ->
   Api.EvParse req ∉ trace run) /\
  (Api.allow_to_anonymous self = true \/
   (exists u, outcome (Api.gate load_user self req) = Ok u) ->
   forall e, parse req = Raise e ->
   outcome run = Raise e /\ Api.service_calls (trace run) = []).
Proof.
  intros run. subst run. split.
  - intros Hanon e He.
    destruct (gate_shape load_user self req)
      as [[e0 Hg]|(tok & secret & verify & Hg)];
      run_handler; rewrite Hanon, Hg; rewrite Hg in He; cbn in He |- *.
    + apply not_elem_of_nil.
    + rewrite He. cbn. rewrite elem_of_cons, elem_of_nil.
      intros [H|[]]. discriminate H.
  - intros Hauth e He.
    destruct Hauth as [Hanon | [u Hu]].
    + run_handler. rewrite Hanon, He. cbn. split; reflexivity.
    + destruct (Api.allow_to_anonymous self) eqn:Hanon;
        [run_handler; rewrite Hanon, He; cbn; split; reflexivity|].
      destruct (gate_shape load_user self req)
        as [[e0 Hg]|(tok & secret & verify & Hg)];
        rewrite Hg in Hu; cbn in Hu; [discriminate Hu|].
      run_handler. rewrite Hanon, Hg, Hu, He. cbn. split; reflexivity.
Qed.
End HandlerProperties.

(** ** More on the registered routes *)

Lemma list_ascii_of_string_app (a b : string) :
  list_ascii_of_string (a +:+ b) =
  list_ascii_of_string a ++ list_ascii_of_string b.
Proof.
  induction a as [|c a IH]; [reflexivity|].
  change (String c a +:+ b) with (String c (a +:+ b)). cbn.
  rewrite IH. reflexivity.
Qed.

Lemma list_ascii_of_string_inj (a b : string) :
  list_ascii_of_string a = list_ascii_of_string b -> a = b.
Proof.
  intros H. rewrite <- (string_of_list_ascii_of_string a),
    <- (string_of_list_ascii_of_string b), H. reflexivity.
Qed.

(** Two names with suffixes, read from their last character backwards. *)
Lemma append_eq_rev (a b s1 s2 : string) :
  a +:+ s1 = b +:+ s2 ->
  rev (list_ascii_of_string s1) ++ rev (list_ascii_of_string a) =
  rev (list_ascii_of_string s2) ++ rev (list_ascii_of_string b).
Proof.
  intros H. apply (f_equal list_ascii_of_string) in H.
  rewrite !list_ascii_of_string_app in H.
  apply (f_equal (@rev ascii)) in H. rewrite !rev_app_distr in H. exact H.
Qed.

Lemma rev_list_ascii_inj (a b : string) :
  rev (list_ascii_of_string a) = rev (list_ascii_of_string b) -> a = b.
Proof.
  intros H. apply list_ascii_of_string_inj.
  rewrite <- (rev_involutive (list_ascii_of_string a)),
    <- (rev_involutive (list_ascii_of_string b)), H. reflexivity.
Qed.

(** A string is not itself followed by a non-empty suffix. *)
Lemma append_nonempty_neq (a : string) (c : ascii) (s : string) :
  a +:+ String c s <> a.
Proof.
  intros H. apply (f_equal list_ascii_of_string) in H.
  rewrite list_ascii_of_string_app in H.
  apply (f_equal (@List.length ascii)) in H.
  rewrite List.length_app in H. cbn in H. lia.
Qed.

Section RouteProperties.
Context {User Db GenericService Pipeline : Type}.

Local Abbreviation GenericErtisApi :=
  (Api.GenericErtisApi User Db GenericService Pipeline).

(** What a registered route looks like, by its view. *)
Lemma route_shape (self : GenericErtisApi) (r : Api.Route) :
  r ∈ Api.generate_endpoints self ->
  r = match Api.view_func r with
      | Api.Query =>
          {| Api.rule := Api.endpoint_prefix self +:+ "/_query";
             Api.http_methods := ["POST"];
             Api.endpoint := Api.resource_name self +:+ "_query";
             Api.view_func := Api.Query |}
      | Api.Read =>
          {| Api.rule := Api.endpoint_prefix self +:+ "/<resource_id>";
             Api.http_methods := ["GET"];
             Api.endpoint := Api.resource_name self +:+ "_read";
             Api.view_func := Api.Read |}
      | Api.Create =>
          {| Api.rule := Api.endpoint_prefix self;
             Api.http_methods := ["POST"];
             Api.endpoint := Api.resource_name self +:+ "_create";
             Api.view_func := Api.Create |}
      | Api.Update =>
          {| Api.rule := Api.endpoint_prefix self +:+ "/<resource_id>";
             Api.http_methods := ["PUT"];
             Api.endpoint := Api.resource_name self +:+ "_update";
             Api.view_func := Api.Update |}
      | Api.Delete =>
          {| Api.rule := Api.endpoint_prefix self +:+ "/<resource_id>";
             Api.http_methods := ["DELETE"];
             Api.endpoint := Api.resource_name self +:+ "_delete";
             Api.view_func := Api.Delete |}
      end.
Proof.
  unfold Api.generate_endpoints, Api.generate_urls.
  rewrite !elem_of_app.
  intros [Hin|[Hin|[Hin|[Hin|Hin]]]];
    case_bool_decide; try (by apply elem_of_nil in Hin);
    apply list_elem_of_singleton in Hin; subst r; reflexivity.
Qed.

(** X8: endpoint names tell routes apart, also across descriptors: two
    registered routes with the same endpoint name are for the same view
    of resources with the same name. *)
Theorem endpoint_names_identify_view_and_resource
    (self1 self2 : GenericErtisApi) (r1 r2 : Api.Route) :
  r1 ∈ Api.generate_endpoints self1 ->
  r2 ∈ Api.generate_endpoints self2 ->
  Api.endpoint r1 = Api.endpoint r2 ->
  Api.view_func r1 = Api.view_func r2 /\
  Api.resource_name self1 = Api.resource_name self2.
Proof.
  intros H1 H2 He.
  apply route_shape in H1, H2. rewrite H1, H2 in He.
  destruct (Api.view_func r1), (Api.view_func r2); cbn in He;
    apply append_eq_rev in He; cbn in He; simplify_eq;
    (split; [reflexivity | apply rev_list_ascii_inj; assumption]).
Qed.

(** X9: no two routes of a descriptor answer the same rule on the same
    HTTP methods. *)
Theorem routes_do_not_collide (self : GenericErtisApi) (r1 r2 : Api.Route) :
  r1 ∈ Api.generate_endpoints self ->
  r2 ∈ Api.generate_endpoints self ->
  Api.rule r1 = Api.rule r2 ->
  Api.http_methods r1 = Api.http_methods r2 ->
  r1 = r2.
Proof.
  intros H1 H2 Hr Hm.
  apply route_shape in H1, H2. rewrite H1, H2 in Hr, Hm. rewrite H1, H2.
  destruct (Api.view_func r1), (Api.view_func r2); cbn in Hr, Hm;
    try discriminate Hm; try reflexivity.
  - exfalso. exact (append_nonempty_neq _ _ _ Hr).
  - exfalso. symmetry in Hr. exact (append_nonempty_neq _ _ _ Hr).
Qed.

(** X10: the registered routes depend on [self.methods] only through
    membership: order and repetition of its entries change nothing. *)
Theorem routes_depend_on_membership (self1 self2 : GenericErtisApi) :
  Api.endpoint_prefix self1 = Api.endpoint_prefix self2 ->
  Api.resource_name self1 = Api.resource_name self2 ->
  (forall m, m ∈ Api.methods self1 <-> m ∈ Api.methods self2) ->
  Api.generate_endpoints self1 = Api.generate_endpoints self2.
Proof.
  intros Hp Hn Hm. unfold Api.generate_endpoints, Api.generate_urls.
  rewrite Hp, Hn.
  rewrite (bool_decide_ext _ _ (Hm "QUERY")), (bool_decide_ext _ _ (Hm "GET")),
    (bool_decide_ext _ _ (Hm "POST")), (bool_decide_ext _ _ (Hm "PUT")),
    (bool_decide_ext _ _ (Hm "DELETE")).
  reflexivity.
Qed.

(** X11: the views are registered in the order query, read, create,
    update, delete, each at most once, whatever [self.methods] lists. *)
Theorem routes_in_fixed_order (self : GenericErtisApi) :
  Api.view_func <$> Api.generate_endpoints self
  `sublist_of` [Api.Query; Api.Read; Api.Create; Api.Update; Api.Delete].
Proof.
  unfold Api.generate_endpoints, Api.generate_urls.
  repeat case_bool_decide; cbn;
    repeat first [ apply sublist_nil | apply sublist_skip_cons | idtac ];
    repeat first [ apply sublist_nil | apply sublist_skip | apply sublist_cons ].
Qed.
End RouteProperties.

(** ** The constructor's default *)

Lemma append_assoc (a b c : string) : (a +:+ b) +:+ c = a +:+ (b +:+ c).
Proof.
  induction a as [|x a IH]; [reflexivity|].
  change ((String x a +:+ b) +:+ c) with (String x ((a +:+ b) +:+ c)).
  rewrite IH. reflexivity.
Qed.

Section ConstructorProperties.
Context {User Db GenericService Pipeline : Type}.
Variable load_user : Db -> pyval -> pyval -> pyval -> Result User.
Variable parse : Request -> Result (pyval * pyval * pyval * pyval * pyval).

(** X12: a descriptor built without [allow_to_anonymous] is not anonymous:
    over settings holding both keys, every view answers a request that has
    no Authorization header with the 401
    [errors.authorizationHeaderRequired]. *)
Theorem default_descriptor_requires_header
    (app : Api.App Db GenericService) (settings : gmap string pyval)
    (endpoint_prefix : string) (methods : list string)
    (resource_name : string)
    (resource_service : Api.ResourceService User GenericService Pipeline)
    (create_schema update_schema : option pyval)
    (pipeline : option Pipeline)
    (v : Api.View) (req : Request) (resource_id : string) :
  is_Some (settings !! "application_secret") ->
  is_Some (settings !! "verify_token") ->
  headers req !! "Authorization" = None ->
  Api.run_view load_user parse
    (Api.__init__ app settings endpoint_prefix methods resource_name
       resource_service create_schema update_schema pipeline None)
    v req resource_id =
  raise (ErtisError "errors.authorizationHeaderRequired"
           ("Authorization header is required for using this api<"
              +:+ resource_name +:+ ">") 401 None).
Proof.
  intros [secret Hs] [verify Hv] Hh.
  destruct v; run_handler; cbn -[lookup];
    unfold Api.gate, Api.ensure_token_provided, lift, getitem, raise;
    cbn -[lookup]; rewrite Hs, Hv; cbn -[lookup]; rewrite Hh; reflexivity.
Qed.
End ConstructorProperties.

(** ** More on the token endpoints *)

Section TokensMore.
Context {User Db GenericService : Type}.
Variable json_loads : string -> Result pyval.
Variable json_dumps : pyval -> string.
Variable validate : pyval -> pyval -> Result unit.
Variable CREATE_TOKEN_SCHEMA : pyval.
Variable load_user : Db -> pyval -> pyval -> pyval -> Result User.
Variable craft_token :
  GenericService -> pyval -> pyval -> pyval -> Result string.
Variable service_refresh_token : User -> pyval -> pyval -> Result string.
Variable py_str : pyval -> string.
Variable app : Api.App Db GenericService.
Variable settings : gmap string pyval.

Local Abbreviation create_token :=
  (Tokens.create_token (User := User) json_loads json_dumps validate
     CREATE_TOKEN_SCHEMA craft_token app settings).
Local Abbreviation refresh_token :=
  (Tokens.refresh_token json_loads json_dumps load_user
     service_refresh_token app settings).

(** X13: [refresh_token] asks the token service for a new token only as
    its second call, right after a [load_user] call on a truthy token that
    returned the very user the new token is for, and nothing follows. *)
Theorem refresh_only_after_load_user (req : Request)
    (pre post : list (Tokens.Event User Db GenericService))
    (user : User) (secret ttl : pyval) :
  trace (refresh_token req) =
  pre ++ Tokens.EvRefreshToken user secret ttl :: post ->
  exists token verify,
    pre = [Tokens.EvLoadUser (Api.db app) token secret verify] /\
    post = [] /\
    truthy token = true /\
    load_user (Api.db app) token secret verify = Ok user.
Proof.
  unfold Tokens.refresh_token, lift, call, raise, getitem, py_get.
  destruct (json_loads (data req)) as [body|e]; cbn -[lookup].
  2: { destruct e; cbn; intros H; destruct pre; discriminate H. }
  destruct body; cbn -[lookup];
    try (intros H; destruct pre; discriminate H).
  destruct (truthy _) eqn:Htruthy; cbn -[lookup];
    [|intros H; destruct pre; discriminate H].
  destruct (settings !! "application_secret") as [s|]; cbn -[lookup];
    [|intros H; destruct pre; discriminate H].
  destruct (settings !! "verify_token") as [vf|]; cbn -[lookup];
    [|intros H; destruct pre; discriminate H].
  destruct (load_user _ _ _ _) as [u|e] eqn:Hload; cbn -[lookup];
    [|intros H; destruct pre as [|? [|? ?]]; discriminate H].
  destruct (settings !! "token_ttl") as [tt'|]; cbn -[lookup];
    [|intros H; destruct pre as [|? [|? ?]]; discriminate H].
  destruct (service_refresh_token _ _ _); cbn -[lookup];
    intros H; destruct pre as [|ev1 [|ev2 [|? ?]]]; simplify_eq/=;
    eexists _, _; repeat split; eassumption.
Qed.

(** X14: [create_token] either fails without calling anything, or calls
    [craft_token] once, on a body the validator accepted, with a
    credentials dictionary holding the body's email and password and
    nothing else; what [craft_token] raises leaves the handler unchanged. *)
Theorem craft_token_only_on_valid_body (req : Request) :
  let run := create_token req in
  (trace run = [] /\ exists e, outcome run = Raise e) \/
  (exists body email password secret ttl,
      json_loads (data req) = Ok body /\
      validate body CREATE_TOKEN_SCHEMA = Ok tt /\
      py_getitem body "email" = Ok email /\
      py_getitem body "password" = Ok password /\
      settings !! "application_secret" = Some secret /\
      settings !! "token_ttl" = Some ttl /\
      let credentials :=
        PyDict (<["email" := email]> (<["password" := password]> ∅)) in
      run =
      ([Tokens.EvCraftToken (Api.generic_service app) credentials secret ttl],
       match craft_token (Api.generic_service app) credentials secret ttl with
       | Ok token =>
           Ok {| response :=
                   json_dumps (PyDict (<["token" := PyStr token]> ∅));
                 mimetype := Some "application/json";
                 status := 200 |}
       | Raise e => Raise e
       end)).
Proof.
  intros run. subst run.
  unfold Tokens.create_token, lift, call, raise, getitem.
  destruct (json_loads (data req)) as [body|e]; cbn -[lookup];
    [|left; split; [reflexivity|eexists; reflexivity]].
  destruct (validate body CREATE_TOKEN_SCHEMA) as [[]|e] eqn:Hval;
    cbn -[lookup].
  2: { left. destruct e; cbn -[lookup];
         try (split; [reflexivity|eexists; reflexivity]).
       unfold py_get. destruct schema; cbn -[lookup];
         split; try reflexivity; eexists; reflexivity. }
  destruct (py_getitem body "email") as [email|e] eqn:Hemail; cbn -[lookup];
    [|left; split; [reflexivity|eexists; reflexivity]].
  destruct (py_getitem body "password") as [password|e] eqn:Hpw;
    cbn -[lookup]; [|left; split; [reflexivity|eexists; reflexivity]].
  destruct (settings !! "application_secret") as [secret|] eqn:Hs;
    cbn -[lookup]; [|left; split; [reflexivity|eexists; reflexivity]].
  destruct (settings !! "token_ttl") as [ttl|] eqn:Httl;
    cbn -[lookup]; [|left; split; [reflexivity|eexists; reflexivity]].
  right. exists body, email, password, secret, ttl.
  repeat (split; [first [reflexivity | assumption]|]).
  cbn -[lookup]. destruct (craft_token _ _ _ _); reflexivity.
Qed.

(** X15: when the validator accepts a body that lacks a field,
    [create_token] ends in [KeyError] for [email], or for [password] when
    the email is there, and in [TypeError] when the body is no object; in
    each case before [craft_token]. *)
Theorem create_token_missing_field (req : Request) (body : pyval) :
  json_loads (data req) = Ok body ->
  validate body CREATE_TOKEN_SCHEMA = Ok tt ->
  (forall d, body = PyDict d -> d !! "email" = None ->
             create_token req = raise (KeyError "email")) /\
  (forall d, body = PyDict d -> is_Some (d !! "email") ->
             d !! "password" = None ->
             create_token req = raise (KeyError "password")) /\
  ((forall d, body <> PyDict d) ->
   create_token req = raise (TypeError "subscript")).
Proof.
  intros Hjson Hval.
  unfold Tokens.create_token, lift, call, raise, getitem, py_getitem.
  rewrite Hjson. cbn -[lookup]. rewrite Hval. cbn -[lookup].
  repeat split.
  - intros d -> He. unfold getitem. rewrite He. reflexivity.
  - intros d -> [email He] Hp. unfold getitem. rewrite He. cbn -[lookup].
    rewrite Hp. reflexivity.
  - intros Hbody. destruct body; try reflexivity.
    exfalso. exact (Hbody d eq_refl).
Qed.

(** X16: [init_api] registers both rules or none: without [api_version]
    in the settings it ends in [KeyError] with nothing registered, and with
    it the two rules are on POST, the refresh rule is the create rule
    followed by [/refresh], and rules and endpoint names differ. *)
Theorem init_api_registers_both_or_none :
  match settings !! "api_version" with
  | None =>
      Tokens.init_api py_str settings = raise (KeyError "api_version")
  | Some version =>
      exists create refresh,
        Tokens.init_api py_str settings = ([create; refresh], Ok tt) /\
        Tokens.view_func create = Tokens.CreateToken /\
        Tokens.view_func refresh = Tokens.RefreshToken /\
        Tokens.http_methods create = ["POST"] /\
        Tokens.http_methods refresh = ["POST"] /\
        Tokens.rule refresh = Tokens.rule create +:+ "/refresh" /\
        Tokens.rule refresh <> Tokens.rule create /\
        Tokens.endpoint refresh <> Tokens.endpoint create
  end.
Proof.
  unfold Tokens.init_api, lift, call, raise, getitem.
  destruct (settings !! "api_version") as [version|];
    cbn -[lookup String.append]; [|reflexivity].
  eexists _, _. split; [reflexivity|].
  cbn [Tokens.view_func Tokens.http_methods Tokens.rule Tokens.endpoint].
  assert (Hrule : "/api/" +:+ py_str version +:+ "/tokens/refresh" =
                  ("/api/" +:+ py_str version +:+ "/tokens") +:+ "/refresh").
  { change "/tokens/refresh" with ("/tokens" +:+ "/refresh").
    rewrite !append_assoc. reflexivity. }
  repeat split.
  - exact Hrule.
  - rewrite Hrule. apply append_nonempty_neq.
  - discriminate.
Qed.
End TokensMore.

(** ** The further statements on the sample deployment *)

(** [Basic abc] reaches [load_user] with [abc], as [Bearer abc] does. *)
Lemma gate_ignores_scheme_witness :
  Api.ensure_token_provided (GenericService := unit) (Pipeline := unit)
    Sample.load_user tt (Sample.request (Some "Basic abc") "") "users"
    (PyStr "s3cret") (PyBool true) =
  call (Api.EvLoadUser tt (PyStr "abc") (PyStr "s3cret") (PyBool true))
       (Sample.load_user tt (PyStr "abc") (PyStr "s3cret") (PyBool true)).
Proof.
  apply (gate_ignores_scheme (GenericService := unit) (Pipeline := unit)
           Sample.load_user tt (Sample.request (Some "Basic abc") "")
           "users" (PyStr "s3cret") (PyBool true) "Basic" "abc").
  - reflexivity.
  - intros c Hc. cbn in Hc.
    repeat (destruct Hc as [<- | Hc]; [discriminate|]). contradiction.
  - intros c Hc. cbn in Hc.
    repeat (destruct Hc as [<- | Hc]; [discriminate|]). contradiction.
Defined.

(** A descriptor built over empty settings: a request with a good token
    still ends in [KeyError]. *)
Lemma missing_setting_is_key_error_witness :
  Api.run_view Sample.load_user Sample.parse
    (Api.__init__ Sample.app ∅ "/api/v1/users" Sample.all_methods "users"
       Sample.resource_service None None None None)
    Api.Read (Sample.request (Some "Bearer abc") "") "42" =
  raise (KeyError "application_secret").
Proof.
  apply (proj1 (missing_setting_is_key_error Sample.load_user Sample.parse
                  (Api.__init__ Sample.app ∅ "/api/v1/users"
                     Sample.all_methods "users" Sample.resource_service
                     None None None None)
                  Api.Read (Sample.request (Some "Bearer abc") "") "42"
                  eq_refl)).
  reflexivity.
Defined.

(** On the anonymous [users] resource, [read] answers the same with and
    without a header. *)
Lemma anonymous_views_skip_authentication_witness :
  Api.run_view Sample.load_user Sample.parse
    (Sample.users Sample.all_methods true) Api.Read
    (Sample.request (Some "no token here") "") "42" =
  Api.run_view Sample.load_user Sample.parse
    (Sample.users Sample.all_methods true) Api.Read
    (Sample.request None "") "42".
Proof.
  apply (proj2 (anonymous_views_skip_authentication Sample.load_user
                  Sample.parse (Sample.users Sample.all_methods true)
                  Api.Read (Sample.request None "") "42" eq_refl)).
  left. reflexivity.
Defined.

(** A parser that rejects the request stops [query] before the service. *)
Lemma query_parses_after_authentication_witness :
  let run :=
    Api.query Sample.load_user (fun _ => Raise (ValueError "bad filter"))
      (Sample.users Sample.all_methods false)
      (Sample.request (Some "Bearer abc") "{") in
  outcome run = Raise (ValueError "bad filter") /\
  Api.service_calls (trace run) = [].
Proof.
  apply (proj2 (query_parses_after_authentication Sample.load_user
                  (fun _ => Raise (ValueError "bad filter"))
                  (Sample.users Sample.all_methods false)
                  (Sample.request (Some "Bearer abc") "{"))).
  - right. exists "alice". reflexivity.
  - reflexivity.
Defined.

(** The read routes of two descriptors of the same resource share their
    endpoint name. *)
Lemma endpoint_names_identify_view_and_resource_witness :
  let read_route :=
    {| Api.rule := "/api/v1/users/<resource_id>";
       Api.http_methods := ["GET"];
       Api.endpoint := "users_read";
       Api.view_func := Api.Read |} in
  Api.view_func read_route = Api.view_func read_route /\
  Api.resource_name (Sample.users ["GET"] false) =
  Api.resource_name (Sample.users Sample.all_methods true).
Proof.
  intros read_route.
  apply (endpoint_names_identify_view_and_resource
           (Sample.users ["GET"] false)
           (Sample.users Sample.all_methods true) read_route read_route).
  - unfold read_route. cbn. apply list_elem_of_here.
  - unfold read_route. cbn. apply list_elem_of_further, list_elem_of_here.
  - reflexivity.
Defined.

(** The read route of the sample resource, found twice, is one route. *)
Lemma routes_do_not_collide_witness :
  let read_route :=
    {| Api.rule := "/api/v1/users/<resource_id>";
       Api.http_methods := ["GET"];
       Api.endpoint := "users_read";
       Api.view_func := Api.Read |} in
  read_route = read_route.
Proof.
  intros read_route.
  apply (routes_do_not_collide (Sample.users Sample.all_methods false)
           read_route read_route).
  - unfold read_route. cbn. apply list_elem_of_further, list_elem_of_here.
  - unfold read_route. cbn. apply list_elem_of_further, list_elem_of_here.
  - reflexivity.
  - reflexivity.
Defined.

(** A repeated and reordered method list gives the same routes. *)
Lemma routes_depend_on_membership_witness :
  Api.generate_endpoints (Sample.users ["POST"; "GET"; "POST"] false) =
  Api.generate_endpoints (Sample.users ["GET"; "POST"] false).
Proof.
  apply (routes_depend_on_membership
           (Sample.users ["POST"; "GET"; "POST"] false)
           (Sample.users ["GET"; "POST"] false)).
  - reflexivity.
  - reflexivity.
  - intros m. cbn. rewrite !elem_of_cons, !elem_of_nil. tauto.
Defined.

(** A descriptor built with the default flag rejects a request that has no
    header. *)
Lemma default_descriptor_requires_header_witness :
  Api.run_view Sample.load_user Sample.parse
    (Api.__init__ Sample.app Sample.settings "/api/v1/users"
       Sample.all_methods "users" Sample.resource_service None None None None)
    Api.Create (Sample.request None "{}") "" =
  raise (ErtisError "errors.authorizationHeaderRequired"
           "Authorization header is required for using this api<users>"
           401 None).
Proof.
  apply (default_descriptor_requires_header Sample.load_user Sample.parse
           Sample.app Sample.settings "/api/v1/users" Sample.all_methods
           "users" Sample.resource_service None None None
           Api.Create (Sample.request None "{}") "").
  - eexists. reflexivity.
  - eexists. reflexivity.
  - reflexivity.
Defined.

(** Refreshing with the token of [alice]: the new token is made for the
    user [load_user] returned. *)
Lemma refresh_only_after_load_user_witness :
  exists token verify,
    [Tokens.EvLoadUser (User := string) (GenericService := unit) tt
       (PyStr "abc") (PyStr "s3cret") (PyBool true)] =
    [Tokens.EvLoadUser (User := string) (GenericService := unit) tt token
       (PyStr "s3cret") verify] /\
    @nil (Tokens.Event string unit unit) = [] /\
    truthy token = true /\
    Sample.load_user tt token (PyStr "s3cret") verify = Ok "alice".
Proof.
  apply (refresh_only_after_load_user Sample.json_loads Sample.json_dumps
           Sample.load_user Sample.service_refresh_token Sample.app
           Sample.settings (Sample.request None Sample.refresh_body)
           [Tokens.EvLoadUser tt (PyStr "abc") (PyStr "s3cret") (PyBool true)]
           [] "alice" (PyStr "s3cret") (PyInt 60)).
  reflexivity.
Defined.

(** Under a validator that lets everything through, the body with an email
    alone ends in [KeyError] for the password. *)
Lemma create_token_missing_field_witness :
  Tokens.create_token (User := string) Sample.json_loads Sample.json_dumps
    (fun _ _ => Ok tt) Sample.CREATE_TOKEN_SCHEMA Sample.craft_token
    Sample.app Sample.settings (Sample.request None Sample.partial_body) =
  raise (KeyError "password").
Proof.
  apply (proj1 (proj2 (create_token_missing_field (User := string)
                         Sample.json_loads Sample.json_dumps
                         (fun _ _ => Ok tt) Sample.CREATE_TOKEN_SCHEMA
                         Sample.craft_token Sample.app Sample.settings
                         (Sample.request None Sample.partial_body)
                         (PyDict (<["email" := PyStr "a@b.com"]> ∅))
                         eq_refl eq_refl))
           (<["email" := PyStr "a@b.com"]> ∅) eq_refl).
  - eexists. reflexivity.
  - reflexivity.
Defined.

(** The array body stops [refresh_token] at [body.get]. *)
Lemma refresh_token_not_object_witness :
  Tokens.refresh_token Sample.json_loads Sample.json_dumps Sample.load_user
    Sample.service_refresh_token Sample.app Sample.settings
    (Sample.request (Some "Bearer abc") "[]") =
  raise (AttributeError "get").
Proof.
  apply (refresh_token_not_object Sample.json_loads Sample.json_dumps
           Sample.load_user Sample.service_refresh_token Sample.app
           Sample.settings (Sample.request (Some "Bearer abc") "[]")
           (PyList [])).
  - reflexivity.
  - intros d. discriminate.
Defined.

(** Refreshing with the token of [alice] answers 201 with the new token. *)
Lemma refresh_token_on_objects_witness :
  Tokens.refresh_token Sample.json_loads Sample.json_dumps Sample.load_user
    Sample.service_refresh_token Sample.app Sample.settings
    (Sample.request None Sample.refresh_body) =
  ([Tokens.EvLoadUser tt (PyStr "abc") (PyStr "s3cret") (PyBool true);
    Tokens.EvRefreshToken "alice" (PyStr "s3cret") (PyInt 60)],
   Ok {| response :=
           Sample.json_dumps
             (PyDict (<["token" := PyStr "new-token-for-alice"]> ∅));
         mimetype := Some "application/json";
         status := 201 |}).
Proof.
  apply (proj2 (proj2 (proj2
           (refresh_token_on_objects Sample.json_loads Sample.json_dumps
              Sample.load_user Sample.service_refresh_token Sample.app
              Sample.settings (Sample.request None Sample.refresh_body))))
           (<["token" := PyStr "abc"]> ∅) (PyStr "abc") (PyStr "s3cret")
           (PyBool true) (PyInt 60) "alice" "new-token-for-alice");
    reflexivity.
Defined.
